(** * Text enrichment pipeline: a shallow embedding of [pipeline.py]

    The script pipes a text through three external collaborators (an
    extractive summarizer, a named-entity recogniser, a sentiment scorer) and
    writes the aggregated record as JSON and, unless told otherwise, as an HTML
    report.  The embedding keeps the script's own code (wrappers, thresholds,
    file naming, control flow of [main]) and takes the collaborators as
    oracles of an environment record. *)

From Stdlib Require Import Floats ZArith NArith Ascii String List Lia.
From stdpp Require Import gmap list.
Import ListNotations.

Set Warnings "-inexact-float".
Local Open Scope N_scope.
Local Open Scope list_scope.

(** ** Python strings

    A Python [str] is a sequence of Unicode code points. *)

Definition char := N.
Definition str := list char.

(** An ASCII literal of the source as a [str]. *)
Definition lit (s : string) : str := List.map N_of_ascii (list_ascii_of_string s).
Arguments lit s%_string.

(** [str.isspace] on one code point (CPython's [_PyUnicode_IsWhitespace]). *)
Definition isspace (c : char) : bool :=
  ((9 <=? c) && (c <=? 13)) || ((28 <=? c) && (c <=? 32))
  || (c =? 133) || (c =? 160) || (c =? 5760)
  || ((8192 <=? c) && (c <=? 8202))
  || (c =? 8232) || (c =? 8233) || (c =? 8239) || (c =? 8287) || (c =? 12288).

(** [s.lstrip()], [s.rstrip()], [s.strip()] without argument: CPython scans
    from the left while the character is whitespace, then from the right. *)
Fixpoint lstrip (s : str) : str :=
  match s with
  | [] => []
  | c :: r => if isspace c then lstrip r else s
  end.

Definition rstrip (s : str) : str := rev (lstrip (rev s)).

Definition strip (s : str) : str := rstrip (lstrip s).

(** Truth value of a string: the empty string is falsy. *)
Definition truthy (s : str) : bool :=
  match s with [] => false | _ :: _ => true end.

(** [sep.join(xs)]. *)
Fixpoint join (sep : str) (xs : list str) : str :=
  match xs with
  | [] => []
  | [x] => x
  | x :: rest => x ++ sep ++ join sep rest
  end.

(** ** Python values and exceptions *)

(** The values the script builds: strings, floats, lists and dicts with string
    keys.  A dict is an association list in insertion order. *)
#[local] Unset Elimination Schemes.
Inductive pyval :=
| PStr (s : str)
| PFloat (f : float)
| PList (l : list pyval)
| PDict (d : list (str * pyval)).
#[local] Set Elimination Schemes.

Inductive exn :=
| OSError
| FileNotFoundError
| PermissionError
| IsADirectoryError
| UnicodeDecodeError
| EOFError
| KeyError
| TypeError
| LookupError
| SystemExit
| RuntimeError.

(** [isinstance(e, OSError)]: the class and its subclasses. *)
Definition is_OSError (e : exn) : bool :=
  match e with
  | OSError | FileNotFoundError | PermissionError | IsADirectoryError => true
  | _ => false
  end.

Inductive result (A : Type) :=
| Ok (a : A)
| Raise (e : exn).
Arguments Ok {A} a.
Arguments Raise {A} e.

Definition rbind {A B} (r : result A) (k : A -> result B) : result B :=
  match r with
  | Ok a => k a
  | Raise e => Raise e
  end.

Declare Scope result_scope.
Delimit Scope result_scope with result.
Notation "'let?' x ':=' r 'in' k" := (rbind r (fun x => k))
  (at level 10, x name, r at level 100, k at level 200) : result_scope.

(** [d[k]] on a dict given as an association list. *)
Fixpoint dict_get {V} (k : str) (d : list (str * V)) : option V :=
  match d with
  | [] => None
  | (k', v) :: r => if decide (k = k') then Some v else dict_get k r
  end.

Definition getitem {V} (d : list (str * V)) (k : str) : result V :=
  match dict_get k d with
  | Some v => Ok v
  | None => Raise KeyError
  end.

Definition keys {V} (d : list (str * V)) : list str := List.map fst d.

(** ** The enrichment wrappers *)

(** What [summarizer(parser.document, sentences_count)] yields, each sentence
    already converted with [str]: an oracle of the summarization library. *)
Definition Summarizer := str -> Z -> result (list str).

Definition no_summary : str := lit "(No clear summary generated.)".

Definition summarize_text (summarizer : Summarizer) (text : str) (sentences_count : Z)
  : result str :=
  (let? summary_sentences := summarizer text sentences_count in
   let summary := join (lit " ") summary_sentences in
   Ok (if truthy (strip summary) then summary else no_summary))%result.

(** An entity span of the NER model: surface text, label and character
    offsets. *)
Record Ent := {
  ent_text : str;
  ent_label : str;
  ent_start_char : Z;
  ent_end_char : Z;
}.

(** A loaded pipeline: [nlp(text).ents]. *)
Definition NLP := str -> result (list Ent).

Definition extract_entities (text : str) (nlp : NLP) : result (list pyval) :=
  (let? ents := nlp text in
   Ok (List.map (fun ent => PDict [(lit "text", PStr (ent_text ent));
                                   (lit "label", PStr (ent_label ent))]) ents))%result.

(** [analyzer.polarity_scores(text)]: a dict of floats. *)
Definition Analyzer := str -> result (list (str * float)).

Definition scores_dict (scores : list (str * float)) : pyval :=
  PDict (List.map (fun kv => (fst kv, PFloat (snd kv))) scores).

Definition classify_sentiment (text : str) (analyzer : Analyzer) : result pyval :=
  (let? scores := analyzer text in
   let? compound := getitem scores (lit "compound") in
   let label :=
     if (0.05 <=? compound)%float then lit "positive"
     else if (compound <=? - 0.05)%float then lit "negative"
     else lit "neutral" in
   Ok (PDict [(lit "label", PStr label); (lit "scores", scores_dict scores)]))%result.

(** ** [json.dumps] with [indent=2]

    The pure-Python encoder of the standard library, for the value types
    above.  [float_repr] is [float.__repr__], taken as given. *)

Section Json.
Variable float_repr : float -> str.
Variable ensure_ascii : bool.

Definition hexdigit (n : N) : char := if n <? 10 then 48 + n else 87 + n.

(** ['{0:04x}'.format(n)] for [n < 0x10000]. *)
Definition hex4 (n : N) : str :=
  [hexdigit (n / 4096 mod 16); hexdigit (n / 256 mod 16);
   hexdigit (n / 16 mod 16); hexdigit (n mod 16)].

(** [ESCAPE_DCT]: the short escapes, and [\u00XX] for the other controls. *)
Definition escape_dct (c : char) : option str :=
  if c =? 92 then Some (lit "\\")
  else if c =? 34 then Some [92; 34]
  else if c =? 8 then Some (lit "\b")
  else if c =? 12 then Some (lit "\f")
  else if c =? 10 then Some (lit "\n")
  else if c =? 13 then Some (lit "\r")
  else if c =? 9 then Some (lit "\t")
  else if c <? 32 then Some (lit "\u" ++ hex4 c)
  else None.

(** The replacement of one character by [py_encode_basestring]. *)
Definition escape_char (c : char) : str :=
  match escape_dct c with
  | Some e => e
  | None => [c]
  end.

(** The replacement of one character by [py_encode_basestring_ascii]. *)
Definition escape_char_ascii (c : char) : str :=
  match escape_dct c with
  | Some e => e
  | None =>
      if (32 <=? c) && (c <=? 126) then [c]
      else if c <? 65536 then lit "\u" ++ hex4 c
      else
        let n := c - 65536 in
        let s1 := N.lor 55296 (N.land (N.shiftr n 10) 1023) in
        let s2 := N.lor 56320 (N.land n 1023) in
        lit "\u" ++ hex4 s1 ++ lit "\u" ++ hex4 s2
  end.

Definition encoder (s : str) : str :=
  [34] ++ concat (List.map (if ensure_ascii then escape_char_ascii else escape_char) s)
       ++ [34].

Definition floatstr (o : float) : str :=
  if negb (o =? o)%float then lit "NaN"
  else if (o =? infinity)%float then lit "Infinity"
  else if (o =? neg_infinity)%float then lit "-Infinity"
  else float_repr o.

(** ['\n' + ' ' * 2 * level]. *)
Definition newline_indent (level : nat) : str := 10 :: repeat 32 (2 * level)%nat.

Fixpoint iterencode (o : pyval) (level : nat) {struct o} : str :=
  match o with
  | PStr s => encoder s
  | PFloat f => floatstr f
  | PList [] => lit "[]"
  | PList lst =>
      lit "[" ++ newline_indent (S level)
      ++ join (lit "," ++ newline_indent (S level))
              (List.map (fun value => iterencode value (S level)) lst)
      ++ newline_indent level ++ lit "]"
  | PDict [] => lit "{}"
  | PDict dct =>
      lit "{" ++ newline_indent (S level)
      ++ join (lit "," ++ newline_indent (S level))
              (List.map (fun kv => encoder (fst kv) ++ lit ": "
                                   ++ iterencode (snd kv) (S level)) dct)
      ++ newline_indent level ++ lit "}"
  end.

Definition json_dumps (obj : pyval) : str := iterencode obj 0.
End Json.

(** ** The world of a run

    Files, console and the calls made to the model loader are state; the
    collaborators and the clock are oracles of the environment.  Printing
    always goes through, and a file is written whole or not at all. *)

Inductive event := EvLoad | EvDownload.

Record World := mkWorld {
  w_fs : gmap str str;      (* the files, by path *)
  w_stdin : list str;       (* console lines not read yet *)
  w_stdout : list str;      (* lines printed so far *)
  w_calls : list event;     (* calls to spacy.load and spacy.cli.download *)
}.

Record datetime := {
  year : N; month : N; day : N; hour : N; minute : N; second : N;
}.

Record Env := {
  e_now : datetime;                    (* datetime.now() *)
  e_spacy_load : nat -> result NLP;    (* spacy.load, by number of earlier calls *)
  e_download : result unit;            (* spacy.cli.download *)
  e_analyzer : result Analyzer;        (* SentimentIntensityAnalyzer() *)
  e_summarizer : Summarizer;
  e_open_w : str -> option exn;        (* why open(path, "w") fails, if it does *)
  e_float_repr : float -> str;         (* float.__repr__ *)
  e_str : pyval -> str;                (* str() of a value that is not a str *)
}.

Definition M (A : Type) : Type := World -> result A * World.

Definition ret {A} (a : A) : M A := fun w => (Ok a, w).

Definition bind {A B} (m : M A) (k : A -> M B) : M B :=
  fun w =>
    match m w with
    | (Ok a, w') => k a w'
    | (Raise e, w') => (Raise e, w')
    end.

Definition raise {A} (e : exn) : M A := fun w => (Raise e, w).

Definition lift {A} (r : result A) : M A := fun w => (r, w).

(** [try: m except cls: h], with [cls] given by its membership test. *)
Definition try_except {A} (m : M A) (cls : exn -> bool) (h : M A) : M A :=
  fun w =>
    match m w with
    | (Ok a, w') => (Ok a, w')
    | (Raise e, w') => if cls e then h w' else (Raise e, w')
    end.

Declare Scope io_scope.
Delimit Scope io_scope with io.
Notation "'let*' x ':=' m 'in' k" := (bind m (fun x => k))
  (at level 10, x name, m at level 100, k at level 200) : io_scope.

Definition print (line : str) : M unit :=
  fun w => (Ok tt, mkWorld (w_fs w) (w_stdin w) (w_stdout w ++ [line]) (w_calls w)).

(** [Path(p).read_text(encoding="utf-8")]. *)
Definition read_text (p : str) : M str :=
  fun w =>
    match w_fs w !! p with
    | Some t => (Ok t, w)
    | None => (Raise FileNotFoundError, w)
    end.

(** [with open(p, "w", encoding="utf-8") as f: f.write(content)]. *)
Definition write_text (E : Env) (p content : str) : M unit :=
  fun w =>
    match p with
    | [] => (Raise FileNotFoundError, w)
    | _ :: _ =>
        match e_open_w E p with
        | Some e => (Raise e, w)
        | None => (Ok tt, mkWorld (<[p := content]> (w_fs w)) (w_stdin w)
                                  (w_stdout w) (w_calls w))
        end
    end.

(** How many times [spacy.load] has been called so far. *)
Definition load_count (w : World) : nat :=
  length (List.filter (fun ev => match ev with EvLoad => true | _ => false end) (w_calls w)).

Definition spacy_load (E : Env) : M NLP :=
  fun w =>
    (e_spacy_load E (load_count w),
     mkWorld (w_fs w) (w_stdin w) (w_stdout w) (w_calls w ++ [EvLoad])).

Definition download (E : Env) : M unit :=
  fun w =>
    (e_download E, mkWorld (w_fs w) (w_stdin w) (w_stdout w) (w_calls w ++ [EvDownload])).

(** ** Output writers *)

Definition save_json (E : Env) (obj : pyval) (out_path : str) : M unit :=
  write_text E out_path (json_dumps (e_float_repr E) false obj).

(** [v[k]] for a string key. *)
Definition subscript (v : pyval) (k : str) : result pyval :=
  match v with
  | PDict d => getitem d k
  | _ => Raise TypeError
  end.

(** The elements a [for] loop sees. *)
Definition iter (v : pyval) : result (list pyval) :=
  match v with
  | PList l => Ok l
  | PDict d => Ok (List.map PStr (keys d))
  | PStr s => Ok (List.map (fun c => PStr [c]) s)
  | PFloat _ => Raise TypeError
  end.

(** A replacement field of an f-string. *)
Definition fmt (E : Env) (v : pyval) : str :=
  match v with
  | PStr s => s
  | _ => e_str E v
  end.

Fixpoint rmap {A B} (f : A -> result B) (l : list A) : result (list B) :=
  match l with
  | [] => Ok []
  | x :: r => (let? y := f x in let? ys := rmap f r in Ok (y :: ys))%result
  end.

Definition nl : str := [10].
Definition quoted (s : string) : str := [34] ++ lit s ++ [34].

(** One row of the entity table. *)
Definition render_row (E : Env) (e : pyval) : result str :=
  (let? t := subscript e (lit "text") in
   let? l := subscript e (lit "label") in
   Ok (lit "<tr><td>" ++ fmt E t ++ lit "</td><td>" ++ fmt E l ++ lit "</td></tr>"))%result.

Definition render_html (E : Env) (results : pyval) : result str :=
  (let? summary := subscript results (lit "summary") in
   let? entities := subscript results (lit "entities") in
   let? es := iter entities in
   let? rows := rmap (render_row E) es in
   let? sentiment := subscript results (lit "sentiment") in
   let? label := subscript sentiment (lit "label") in
   let? sentiment' := subscript results (lit "sentiment") in
   let? scores := subscript sentiment' (lit "scores") in
   let? original_text := subscript results (lit "original_text") in
   Ok (lit "<!doctype html>" ++ nl
       ++ lit "<html lang=" ++ quoted "en" ++ lit "><head><meta charset="
       ++ quoted "utf-8" ++ lit ">" ++ nl
       ++ lit "<title>Text Enrichment Report</title>" ++ nl
       ++ lit "<style>" ++ nl
       ++ lit "body { font-family: Arial, sans-serif; margin: 40px; line-height: 1.5; }" ++ nl
       ++ lit "pre { background:#f7f7f7; padding:12px; border-radius:6px; }" ++ nl
       ++ lit ".box { padding:10px; border:1px solid #ddd; border-radius:6px; margin-bottom:16px; }" ++ nl
       ++ lit ".entities td { padding:6px; border-bottom:1px solid #eee; }" ++ nl
       ++ lit "</style></head><body>" ++ nl
       ++ lit "<h1>Text Enrichment Report</h1>" ++ nl
       ++ lit "<div class=" ++ quoted "box" ++ lit "><h2>Summary</h2><p>"
       ++ fmt E summary ++ lit "</p></div>" ++ nl
       ++ lit "<div class=" ++ quoted "box" ++ lit "><h2>Named Entities</h2>" ++ nl
       ++ lit "<table class=" ++ quoted "entities"
       ++ lit "><tr><th>Entity</th><th>Label</th></tr>" ++ nl
       ++ concat rows ++ nl
       ++ lit "</table></div>" ++ nl
       ++ lit "<div class=" ++ quoted "box" ++ lit "><h2>Sentiment</h2>" ++ nl
       ++ lit "<p><strong>Label:</strong> " ++ fmt E label ++ lit "</p>" ++ nl
       ++ lit "<pre>" ++ json_dumps (e_float_repr E) true scores ++ lit "</pre></div>" ++ nl
       ++ lit "<div class=" ++ quoted "box" ++ lit "><h2>Original Text</h2><pre>"
       ++ fmt E original_text ++ lit "</pre></div>" ++ nl
       ++ lit "</body></html>"))%result.

Definition make_html_report (E : Env) (results : pyval) (out_html_path : str) : M unit :=
  (let* html := lift (render_html E results) in
   write_text E out_html_path html)%io.

(** ** Command line *)

(** What the user put on the command line. *)
Record CmdLine := {
  cl_input : option str;      (* --input / -i *)
  cl_output : option str;     (* --output / -o *)
  cl_sentences : option Z;    (* --sentences / -s *)
  cl_no_html : bool;          (* --no-html *)
}.

Record Args := {
  input : option str;
  output : str;
  sentences : Z;
  no_html : bool;
}.

(** The namespace [parse_args] builds with the declared defaults. *)
Definition parse_args (cl : CmdLine) : Args :=
  {| input := cl_input cl;
     output := match cl_output cl with Some o => o | None => [] end;
     sentences := match cl_sentences cl with Some n => n | None => 3%Z end;
     no_html := cl_no_html cl |}.

(** ** [main] *)

Definition zpad2 (n : N) : str := [48 + n / 10 mod 10; 48 + n mod 10].
Definition zpad4 (n : N) : str :=
  [48 + n / 1000 mod 10; 48 + n / 100 mod 10; 48 + n / 10 mod 10; 48 + n mod 10].

(** [d.strftime("%Y%m%d_%H%M%S")]. *)
Definition strftime (d : datetime) : str :=
  zpad4 (year d) ++ zpad2 (month d) ++ zpad2 (day d) ++ lit "_"
  ++ zpad2 (hour d) ++ zpad2 (minute d) ++ zpad2 (second d).

(** The [while True] loop over [input()]: it ends at the first line that is
    empty after [strip], or with [EOFError] when the console is exhausted. *)
Fixpoint input_loop (stdin lines : list str) : result (list str) * list str :=
  match stdin with
  | [] => (Raise EOFError, [])
  | line :: rest =>
      if negb (truthy (strip line)) then (Ok lines, rest)
      else input_loop rest (lines ++ [line])
  end.

Definition read_lines : M (list str) :=
  fun w =>
    let '(r, rest) := input_loop (w_stdin w) [] in
    (r, mkWorld (w_fs w) rest (w_stdout w) (w_calls w)).

(** The block under [# Read text]. *)
Definition read_input (args : Args) : M str :=
  let interactive :=
    (let* _ := print (lit "Paste your text (end with an empty line):") in
     let* lines := read_lines in
     ret (join nl lines))%io in
  match input args with
  | Some p => if truthy p then read_text p else interactive
  | None => interactive
  end.

Definition timestamp (E : Env) : str := strftime (e_now E).

Definition json_name (E : Env) (args : Args) : str :=
  if truthy (output args) then output args
  else lit "results_" ++ timestamp E ++ lit ".json".

Definition html_name (E : Env) : str := lit "report_" ++ timestamp E ++ lit ".html".

(** The [try]/[except OSError] block that loads the NER model. *)
Definition load_model (E : Env) : M NLP :=
  try_except (spacy_load E) is_OSError
    (let* _ := print (lit "Downloading spaCy model...") in
     let* _ := download E in
     spacy_load E)%io.

(** The aggregated record. *)
Definition results (summary : str) (entities : list pyval) (sentiment : pyval)
    (text : str) : pyval :=
  PDict [(lit "summary", PStr summary);
         (lit "entities", PList entities);
         (lit "sentiment", sentiment);
         (lit "original_text", PStr (strip text))].

Definition check_mark : str := [9989].

Definition main (E : Env) (cl : CmdLine) : M unit :=
  let args := parse_args cl in
  (let* text := read_input args in
   let* _ := print (lit " Loading spaCy model...") in
   let* nlp := load_model E in
   let* analyzer := lift (e_analyzer E) in
   let* _ := print (lit " Summarizing...") in
   let* summary := lift (summarize_text (e_summarizer E) text (sentences args)) in
   let* _ := print (lit " Extracting entities...") in
   let* entities := lift (extract_entities text nlp) in
   let* _ := print (lit " Analyzing sentiment...") in
   let* sentiment := lift (classify_sentiment text analyzer) in
   let results := results summary entities sentiment text in
   let* _ := save_json E results (json_name E args) in
   let* _ := print (check_mark ++ lit " JSON saved as " ++ json_name E args) in
   if negb (no_html args) then
     let* _ := make_html_report E results (html_name E) in
     print (check_mark ++ lit " HTML report saved as " ++ html_name E)
   else ret tt)%io.

(** A decimal digit. *)
Definition is_digit (c : char) : bool := (48 <=? c) && (c <=? 57).

(** ** [json.loads]

    The decoder of the standard library (its pure-Python form), kept at the
    level of syntax: a number is returned as its lexeme, an object as its
    members in order. *)

#[local] Unset Elimination Schemes.
Inductive jtree :=
| JNull
| JBool (b : bool)
| JNum (lexeme : str)
| JStr (s : str)
| JArr (values : list jtree)
| JObj (pairs : list (str * jtree)).
#[local] Set Elimination Schemes.

Definition is_ws (c : char) : bool := (c =? 32) || (c =? 9) || (c =? 10) || (c =? 13).

(** [WHITESPACE.match(s, end).end()]. *)
Fixpoint skip_ws (s : str) : str :=
  match s with
  | [] => []
  | c :: r => if is_ws c then skip_ws r else s
  end.

Definition hexval (c : char) : option N :=
  if (48 <=? c) && (c <=? 57) then Some (c - 48)
  else if (97 <=? c) && (c <=? 102) then Some (c - 87)
  else if (65 <=? c) && (c <=? 70) then Some (c - 55)
  else None.

Definition decode_uXXXX (a b c d : char) : option N :=
  match hexval a, hexval b, hexval c, hexval d with
  | Some x, Some y, Some z, Some t => Some (((x * 16 + y) * 16 + z) * 16 + t)
  | _, _, _, _ => None
  end.

(** The table [BACKSLASH]. *)
Definition backslash (esc : char) : option char :=
  if esc =? 34 then Some 34
  else if esc =? 92 then Some 92
  else if esc =? 47 then Some 47
  else if esc =? 98 then Some 8
  else if esc =? 102 then Some 12
  else if esc =? 110 then Some 10
  else if esc =? 114 then Some 13
  else if esc =? 116 then Some 9
  else None.

Definition push (c : char) (r : option (str * str)) : option (str * str) :=
  match r with
  | Some (s, rest) => Some (c :: s, rest)
  | None => None
  end.

(** [py_scanstring] in strict mode, from just after the opening quote: the
    decoded string and what follows the closing quote. *)
Fixpoint scanstring (s : str) : option (str * str) :=
  match s with
  | [] => None
  | c :: r =>
      if c =? 34 then Some ([], r)
      else if c =? 92 then
        match r with
        | [] => None
        | esc :: r1 =>
            if esc =? 117 then
              match r1 with
              | a :: b :: c' :: d :: r2 =>
                  match decode_uXXXX a b c' d with
                  | None => None
                  | Some uni =>
                      if (55296 <=? uni) && (uni <=? 56319) then
                        match r2 with
                        | b1 :: u1 :: a2 :: b2 :: c2 :: d2 :: r3 =>
                            if (b1 =? 92) && (u1 =? 117) then
                              match decode_uXXXX a2 b2 c2 d2 with
                              | None => None
                              | Some uni2 =>
                                  if (56320 <=? uni2) && (uni2 <=? 57343) then
                                    push (65536 + N.lor (N.shiftl (uni - 55296) 10)
                                                        (uni2 - 56320))
                                         (scanstring r3)
                                  else push uni (scanstring r2)
                              end
                            else push uni (scanstring r2)
                        | _ => push uni (scanstring r2)
                        end
                      else push uni (scanstring r2)
                  end
              | _ => None
              end
            else
              match backslash esc with
              | Some ch => push ch (scanstring r1)
              | None => None
              end
        end
      else if c <? 32 then None
      else push c (scanstring r)
  end.

(** The longest prefix of characters that satisfy [p], and the rest. *)
Fixpoint span (p : char -> bool) (s : str) : str * str :=
  match s with
  | [] => ([], [])
  | c :: r => if p c then let '(a, b) := span p r in (c :: a, b) else ([], s)
  end.

(** [NUMBER_RE]: an optional minus sign, then 0 or a digit from 1 to 9 with
    any digits after it; then, optionally, a dot and one digit or more; then,
    optionally, e or E, an optional sign and one digit or more. *)
Definition match_int (s : str) : option (str * str) :=
  match s with
  | [] => None
  | c :: r =>
      if c =? 48 then Some ([c], r)
      else if (49 <=? c) && (c <=? 57) then
        let '(ds, r') := span is_digit r in Some (c :: ds, r')
      else None
  end.

Definition match_frac (s : str) : str * str :=
  match s with
  | [] => ([], s)
  | c :: r =>
      if c =? 46 then
        match span is_digit r with
        | ([], _) => ([], s)
        | (ds, r') => (c :: ds, r')
        end
      else ([], s)
  end.

Definition match_sign (s : str) : str * str :=
  match s with
  | [] => ([], s)
  | c :: r => if (c =? 45) || (c =? 43) then ([c], r) else ([], s)
  end.

Definition match_exp (s : str) : str * str :=
  match s with
  | [] => ([], s)
  | c :: r =>
      if (c =? 101) || (c =? 69) then
        let '(sg, r1) := match_sign r in
        match span is_digit r1 with
        | ([], _) => ([], s)
        | (ds, r') => (c :: sg ++ ds, r')
        end
      else ([], s)
  end.

Definition match_number (s : str) : option (str * str) :=
  let '(sg, r0) :=
    match s with
    | [] => ([], s)
    | c :: r => if c =? 45 then ([c], r) else ([], s)
    end in
  match match_int r0 with
  | None => None
  | Some (i, r1) =>
      let '(f, r2) := match_frac r1 in
      let '(e, r3) := match_exp r2 in
      Some (sg ++ i ++ f ++ e, r3)
  end.

(** [s[idx:idx + len(w)] == w], with what follows. *)
Fixpoint strip_prefix (w s : str) : option str :=
  match w, s with
  | [], _ => Some s
  | _ :: _, [] => None
  | a :: w', b :: s' => if a =? b then strip_prefix w' s' else None
  end.

(** The literals [null], [true] and [false]. *)
Definition scan_keyword (s : str) : option (jtree * str) :=
  match strip_prefix (lit "null") s with
  | Some rest => Some (JNull, rest)
  | None =>
      match strip_prefix (lit "true") s with
      | Some rest => Some (JBool true, rest)
      | None =>
          match strip_prefix (lit "false") s with
          | Some rest => Some (JBool false, rest)
          | None => None
          end
      end
  end.

(** A number, or one of the constants [NaN], [Infinity], [-Infinity]. *)
Definition scan_number (s : str) : option (jtree * str) :=
  match match_number s with
  | Some (lexeme, rest) => Some (JNum lexeme, rest)
  | None =>
      match strip_prefix (lit "NaN") s with
      | Some rest => Some (JNum (lit "NaN"), rest)
      | None =>
          match strip_prefix (lit "Infinity") s with
          | Some rest => Some (JNum (lit "Infinity"), rest)
          | None =>
              match strip_prefix (lit "-Infinity") s with
              | Some rest => Some (JNum (lit "-Infinity"), rest)
              | None => None
              end
          end
      end
  end.

(** [scan_once], [JSONObject] and [JSONArray]; the loop of an object is
    entered just after the opening quote of a key, the loop of an array just
    before a value. *)
Fixpoint scan_once (fuel : nat) (s : str) : option (jtree * str) :=
  match fuel with
  | O => None
  | S fuel =>
      match s with
      | [] => None
      | c :: r =>
          if c =? 34 then
            match scanstring r with
            | Some (x, rest) => Some (JStr x, rest)
            | None => None
            end
          else if c =? 123 then
            match skip_ws r with
            | [] => None
            | d :: r1 =>
                if d =? 125 then Some (JObj [], r1)
                else if d =? 34 then
                  match object_loop fuel r1 with
                  | Some (pairs, rest) => Some (JObj pairs, rest)
                  | None => None
                  end
                else None
            end
          else if c =? 91 then
            match skip_ws r with
            | [] => None
            | d :: r1 =>
                if d =? 93 then Some (JArr [], r1)
                else
                  match array_loop fuel (d :: r1) with
                  | Some (values, rest) => Some (JArr values, rest)
                  | None => None
                  end
            end
          else
            match scan_keyword s with
            | Some found => Some found
            | None => scan_number s
            end
      end
  end
with object_loop (fuel : nat) (s : str) : option (list (str * jtree) * str) :=
  match fuel with
  | O => None
  | S fuel =>
      match scanstring s with
      | None => None
      | Some (key, r) =>
          match skip_ws r with
          | [] => None
          | c :: r1 =>
              if c =? 58 then
                match scan_once fuel (skip_ws r1) with
                | None => None
                | Some (value, r2) =>
                    match skip_ws r2 with
                    | [] => None
                    | d :: r3 =>
                        if d =? 125 then Some ([(key, value)], r3)
                        else if d =? 44 then
                          match skip_ws r3 with
                          | [] => None
                          | q :: r4 =>
                              if q =? 34 then
                                match object_loop fuel r4 with
                                | Some (pairs, rest) => Some ((key, value) :: pairs, rest)
                                | None => None
                                end
                              else None
                          end
                        else None
                    end
                end
              else None
          end
      end
  end
with array_loop (fuel : nat) (s : str) : option (list jtree * str) :=
  match fuel with
  | O => None
  | S fuel =>
      match scan_once fuel s with
      | None => None
      | Some (value, r) =>
          match skip_ws r with
          | [] => None
          | d :: r1 =>
              if d =? 93 then Some ([value], r1)
              else if d =? 44 then
                match array_loop fuel (skip_ws r1) with
                | Some (values, rest) => Some (value :: values, rest)
                | None => None
                end
              else None
          end
      end
  end.

(** [json.loads]: one value, with nothing but whitespace around it. *)
Definition json_loads (s : str) : option jtree :=
  match scan_once (S (length s)) (skip_ws s) with
  | Some (v, rest) => match skip_ws rest with [] => Some v | _ :: _ => None end
  | None => None
  end.

(** The syntax tree of the text [json.dumps] writes for a value. *)
Fixpoint tree_of (float_repr : float -> str) (o : pyval) : jtree :=
  match o with
  | PStr s => JStr s
  | PFloat f => JNum (floatstr float_repr f)
  | PList lst => JArr (List.map (tree_of float_repr) lst)
  | PDict dct => JObj (List.map (fun kv => (fst kv, tree_of float_repr (snd kv))) dct)
  end.

(** What [float.__repr__] is taken to guarantee: the text of a finite float
    is a JSON number. *)
Definition repr_ok (float_repr : float -> str) : Prop :=
  forall f,
    (f =? f)%float = true -> (f =? infinity)%float = false ->
    (f =? neg_infinity)%float = false ->
    match_number (float_repr f) = Some (float_repr f, []).

(** The fuel a value takes to scan. *)
Fixpoint size (o : pyval) : nat :=
  match o with
  | PStr _ | PFloat _ => 1
  | PList lst => S (list_sum (List.map (fun v => S (size v)) lst))
  | PDict dct => S (list_sum (List.map (fun kv => S (size (snd kv))) dct))
  end.

(** ** The label the specification assigns *)

(** compound >= 0.05 is positive, compound <= -0.05 is negative, anything else
    is neutral. *)
Definition spec_label (compound : float) : str :=
  if (0.05 <=? compound)%float then lit "positive"
  else if (compound <=? -0.05)%float then lit "negative"
  else lit "neutral".

(** ** Vocabulary of the statements *)

Definition all_space (s : str) : bool := forallb isspace s.

(** The dict [extract_entities] makes of a span. *)
Definition entity_dict (e : Ent) : pyval :=
  PDict [(lit "text", PStr (ent_text e)); (lit "label", PStr (ent_label e))].

(** The text [save_json] writes. *)
Definition json_text (E : Env) (res : pyval) : str := json_dumps (e_float_repr E) false res.

(** The world once [line] is printed. *)
Definition after_print (line : str) (w : World) : World :=
  mkWorld (w_fs w) (w_stdin w) (w_stdout w ++ [line]) (w_calls w).


Definition set_output (o : option str) (cl : CmdLine) : CmdLine :=
  {| cl_input := cl_input cl; cl_output := o;
     cl_sentences := cl_sentences cl; cl_no_html := cl_no_html cl |}.

(** A character that cannot continue a number. *)
Definition is_delim (c : char) : bool :=
  negb (is_digit c || (c =? 46) || (c =? 101) || (c =? 69) || (c =? 43) || (c =? 45)).

(** What may follow a value in a text written by the encoder. *)
Definition ok_rest (rest : str) : Prop :=
  rest = [] \/ exists c r, rest = c :: r /\ is_delim c = true.

(** The first character of an encoded value. *)
Definition value_start (s : str) : Prop :=
  exists c t, s = c :: t /\ is_ws c = false /\ (c =? 93) = false.

(** One member of an object, as the encoder writes it. *)
Definition member (float_repr : float -> str) (inner : nat) (kv : str * pyval) : str :=
  encoder false (fst kv) ++ lit ": " ++ iterencode float_repr false (snd kv) inner.

(** A value scans back, given enough fuel. *)
Definition scans_back (float_repr : float -> str) (v : pyval) : Prop :=
  forall level rest fuel,
    ok_rest rest -> (size v <= fuel)%nat ->
    scan_once fuel (iterencode float_repr false v level ++ rest)
    = Some (tree_of float_repr v, rest).

(** ** Vocabulary of the further statements *)

(** A line of the console with a character that is not whitespace. *)
Definition nonblank (line : str) : Prop := all_space line = false.

(** [x] occurs in [h], unchanged. *)
Definition infix_of (x h : str) : Prop := exists a b, h = a ++ x ++ b.

(** The row of the entity table for a span. *)
Definition html_row (e : Ent) : str :=
  lit "<tr><td>" ++ ent_text e ++ lit "</td><td>" ++ ent_label e ++ lit "</td></tr>".

(** The syntax tree of the dict made of a span. *)
Definition entity_tree (e : Ent) : jtree :=
  JObj [(lit "text", JStr (ent_text e)); (lit "label", JStr (ent_label e))].


(** A character [json.dumps] writes as it is when [ensure_ascii] is off. *)
Definition plain_char (c : char) : bool :=
  (32 <=? c) && negb (c =? 34) && negb (c =? 92).

(** The ranges of the fields of a [datetime]. *)
Definition valid_datetime (d : datetime) : Prop :=
  year d < 10000 /\ month d < 100 /\ day d < 100
  /\ hour d < 100 /\ minute d < 100 /\ second d < 100.

(** ** A sample run

    A concrete environment on which the statements below are exercised. *)

Module Sample.
Definition repr (f : float) : str :=
  if (f =? 0.6)%float then lit "0.6"
  else if (f =? 0.5)%float then lit "0.5"
  else if (f =? 0.05)%float then lit "0.05"
  else lit "0.0".

Definition paris : Ent :=
  {| ent_text := lit "Paris"; ent_label := lit "GPE";
     ent_start_char := 0; ent_end_char := 5 |}.
Definition paris_again : Ent :=
  {| ent_text := lit "Paris"; ent_label := lit "GPE";
     ent_start_char := 17; ent_end_char := 22 |}.
Definition acme : Ent :=
  {| ent_text := lit "Acme"; ent_label := lit "ORG";
     ent_start_char := 9; ent_end_char := 13 |}.

Definition nlp : NLP := fun _ => Ok [paris; acme; paris_again].

Definition scores : list (str * float) :=
  [(lit "neg", 0.0%float); (lit "neu", 0.5%float); (lit "pos", 0.5%float);
   (lit "compound", 0.05%float)].

Definition analyzer : Analyzer := fun _ => Ok scores.

Definition summarizer : Summarizer := fun text _ => Ok [text].
Definition blank_summarizer : Summarizer := fun _ _ => Ok [lit " "; lit ""].

Definition env : Env :=
  {| e_now := {| year := 2024; month := 1; day := 2;
                 hour := 3; minute := 4; second := 5 |};
     e_spacy_load := fun _ => Ok nlp;
     e_download := Ok tt;
     e_analyzer := Ok analyzer;
     e_summarizer := summarizer;
     e_open_w := fun _ => None;
     e_float_repr := repr;
     e_str := fun _ => [] |}.


(** The model is not installed; the download does not make it loadable. *)
Definition missing_env : Env :=
  {| e_now := e_now env;
     e_spacy_load := fun _ => Raise OSError;
     e_download := e_download env;
     e_analyzer := e_analyzer env;
     e_summarizer := e_summarizer env;
     e_open_w := e_open_w env;
     e_float_repr := e_float_repr env;
     e_str := e_str env |}.

(** The model is not installed; it loads once downloaded. *)
Definition fresh_env : Env :=
  {| e_now := e_now env;
     e_spacy_load := fun n => match n with O => Raise OSError | S _ => Ok nlp end;
     e_download := e_download env;
     e_analyzer := e_analyzer env;
     e_summarizer := e_summarizer env;
     e_open_w := e_open_w env;
     e_float_repr := e_float_repr env;
     e_str := e_str env |}.

Definition text : str := lit "  Paris and Acme. Paris again. ".

Definition cmdline : CmdLine :=
  {| cl_input := None; cl_output := None; cl_sentences := None; cl_no_html := false |}.

Definition cmdline_json : CmdLine :=
  {| cl_input := Some (lit "in.txt"); cl_output := Some (lit "foo.json");
     cl_sentences := None; cl_no_html := false |}.


(** The JSON name asked for is the name the report gets. *)
Definition cmdline_clash : CmdLine :=
  {| cl_input := Some (lit "in.txt");
     cl_output := Some (lit "report_20240102_030405.html");
     cl_sentences := None; cl_no_html := false |}.

Definition world : World := mkWorld {[ lit "in.txt" := text ]} [text; []] [] [].
(** Loading fails for a reason that is not an [OSError]. *)
Definition broken_env : Env :=
  {| e_now := e_now env;
     e_spacy_load := fun _ => Raise RuntimeError;
     e_download := e_download env;
     e_analyzer := e_analyzer env;
     e_summarizer := e_summarizer env;
     e_open_w := e_open_w env;
     e_float_repr := e_float_repr env;
     e_str := e_str env |}.

(** The model is not installed and cannot be downloaded. *)
Definition offline_env : Env :=
  {| e_now := e_now env;
     e_spacy_load := fun _ => Raise OSError;
     e_download := Raise SystemExit;
     e_analyzer := e_analyzer env;
     e_summarizer := e_summarizer env;
     e_open_w := e_open_w env;
     e_float_repr := e_float_repr env;
     e_str := e_str env |}.

(** The scorer answers without a compound score. *)
Definition partial_scores : list (str * float) :=
  [(lit "neg", 0.0%float); (lit "neu", 1.0%float); (lit "pos", 0.0%float)].

Definition partial_env : Env :=
  {| e_now := e_now env;
     e_spacy_load := e_spacy_load env;
     e_download := e_download env;
     e_analyzer := Ok (fun _ => Ok partial_scores);
     e_summarizer := e_summarizer env;
     e_open_w := e_open_w env;
     e_float_repr := e_float_repr env;
     e_str := e_str env |}.

Definition cmdline_missing : CmdLine :=
  {| cl_input := Some (lit "absent.txt"); cl_output := None;
     cl_sentences := None; cl_no_html := false |}.

(** No file can be opened for writing. *)
Definition readonly_env : Env :=
  {| e_now := e_now env;
     e_spacy_load := e_spacy_load env;
     e_download := e_download env;
     e_analyzer := e_analyzer env;
     e_summarizer := e_summarizer env;
     e_open_w := fun _ => Some PermissionError;
     e_float_repr := e_float_repr env;
     e_str := e_str env |}.

(** A console that ends before any blank line. *)
Definition world_eof : World := mkWorld ∅ [text; lit "more"] [] [].

(** A console with two lines of text, a line of spaces, and a line after. *)
Definition world_console : World :=
  mkWorld ∅ [lit "first line"; lit " second "; lit "   "; lit "unread"] [] [].
End Sample.

(** * Properties *)

(** ** Whitespace stripping *)

Lemma lstrip_split (s : str) :
  exists pre, s = pre ++ lstrip s /\ all_space pre = true.
Proof.
  induction s as [|c r [pre [Hr Hp]]]; simpl.
  - exists []. split; reflexivity.
  - destruct (isspace c) eqn:Hc.
    + exists (c :: pre). split.
      * simpl. f_equal. exact Hr.
      * simpl. rewrite Hc. exact Hp.
    + exists []. split; reflexivity.
Qed.

Lemma lstrip_head (s : str) (c : char) :
  head (lstrip s) = Some c -> isspace c = false.
Proof.
  induction s as [|d r IH]; simpl; [discriminate|].
  destruct (isspace d) eqn:Hd; [exact IH|].
  simpl. intros [= <-]. exact Hd.
Qed.

Lemma lstrip_all_space (s : str) : all_space s = true -> lstrip s = [].
Proof.
  induction s as [|c r IH]; simpl; [reflexivity|].
  destruct (isspace c); simpl; [exact IH|discriminate].
Qed.

Lemma lstrip_nil_all_space (s : str) : lstrip s = [] -> all_space s = true.
Proof.
  induction s as [|c r IH]; simpl; [reflexivity|].
  destruct (isspace c); simpl; [exact IH|discriminate].
Qed.

Lemma all_space_app (s t : str) :
  all_space (s ++ t) = all_space s && all_space t.
Proof. unfold all_space. apply forallb_app. Qed.

Lemma all_space_rev (s : str) : all_space (rev s) = all_space s.
Proof.
  induction s as [|c r IH]; simpl; [reflexivity|].
  rewrite all_space_app, IH. simpl. rewrite andb_true_r. apply andb_comm.
Qed.

Lemma rstrip_split (s : str) :
  exists post, s = rstrip s ++ post /\ all_space post = true.
Proof.
  unfold rstrip. destruct (lstrip_split (rev s)) as [pre [Hs Hp]].
  exists (rev pre). split.
  - rewrite <- rev_app_distr, <- Hs, rev_involutive. reflexivity.
  - rewrite all_space_rev. exact Hp.
Qed.

Lemma last_rev {A} (l : list A) : last (rev l) = head l.
Proof. destruct l as [|x l]; simpl; [reflexivity|apply last_snoc]. Qed.

Lemma rstrip_last (s : str) (c : char) :
  last (rstrip s) = Some c -> isspace c = false.
Proof.
  unfold rstrip. rewrite last_rev. apply lstrip_head.
Qed.

(** Dropping trailing whitespace does not touch the first character of a
    string that starts with a character that is not whitespace. *)
Lemma rstrip_head (s : str) (c : char) :
  head s = Some c -> isspace c = false -> head (rstrip s) = Some c.
Proof.
  destruct s as [|d r]; simpl; [discriminate|]. intros [= ->] Hc.
  unfold rstrip. simpl.
  destruct (lstrip_split (rev r ++ [c])) as [pre [Hs Hp]].
  destruct (lstrip (rev r ++ [c])) as [|x l] eqn:Hl.
  - apply lstrip_nil_all_space in Hl. rewrite all_space_app in Hl.
    simpl in Hl. rewrite Hc in Hl. rewrite andb_false_r in Hl. discriminate.
  - assert (Hrev : rev (x :: l) ++ rev pre = c :: r).
    { rewrite <- rev_app_distr, <- Hs, rev_app_distr, rev_involutive. reflexivity. }
    destruct (rev (x :: l)) as [|y l'] eqn:Hy.
    + apply (f_equal (@length _)) in Hy. rewrite length_rev in Hy. discriminate.
    + simpl in Hrev. injection Hrev as -> _. reflexivity.
Qed.

Lemma strip_spec (s : str) :
  exists pre post,
    s = pre ++ strip s ++ post
    /\ all_space pre = true /\ all_space post = true
    /\ (forall c, head (strip s) = Some c -> isspace c = false)
    /\ (forall c, last (strip s) = Some c -> isspace c = false).
Proof.
  unfold strip.
  destruct (lstrip_split s) as [pre [Hs Hp]].
  destruct (rstrip_split (lstrip s)) as [post [Hr Hq]].
  exists pre, post. repeat split; try assumption.
  - rewrite <- Hr. exact Hs.
  - intros c Hc.
    destruct (lstrip s) as [|d r] eqn:Hl; [discriminate|].
    assert (Hd : isspace d = false) by (apply (lstrip_head s); rewrite Hl; reflexivity).
    rewrite (rstrip_head (d :: r) d eq_refl Hd) in Hc.
    injection Hc as <-. exact Hd.
  - apply rstrip_last.
Qed.

Lemma strip_all_space (s : str) : all_space s = true -> strip s = [].
Proof.
  intros H. unfold strip. rewrite (lstrip_all_space s H). reflexivity.
Qed.

Lemma strip_nil_all_space (s : str) : strip s = [] -> all_space s = true.
Proof.
  intros H. destruct (strip_spec s) as (pre & post & Hs & Hp & Hq & _).
  rewrite H in Hs. rewrite Hs, all_space_app, Hp. exact Hq.
Qed.

(** ** Summarization wrapper *)

Lemma no_summary_nonempty : no_summary <> [].
Proof. discriminate. Qed.

(** C2: when the summarizer yields no sentence, and more generally when the
    space-joined summary is empty or only whitespace, [summarize_text] returns
    exactly the placeholder; and whatever the sentences are, it returns a
    string that is not empty. *)
Theorem summarize_text_placeholder
    (summarizer : Summarizer) (text : str) (n : Z) (ss : list str) :
  summarizer text n = Ok ss ->
  (ss = [] -> summarize_text summarizer text n = Ok no_summary)
  /\ (all_space (join (lit " ") ss) = true ->
      summarize_text summarizer text n = Ok no_summary)
  /\ (exists r, summarize_text summarizer text n = Ok r /\ r <> []).
Proof.
  intros Hs. unfold summarize_text. rewrite Hs. simpl.
  assert (Hws : all_space (join (lit " ") ss) = true ->
                Ok (if truthy (strip (join (lit " ") ss))
                    then join (lit " ") ss else no_summary) = Ok no_summary).
  { intros H. rewrite (strip_all_space _ H). reflexivity. }
  split; [|split].
  - intros ->. reflexivity.
  - exact Hws.
  - destruct (strip (join (lit " ") ss)) as [|c r] eqn:Hstrip; simpl.
    + exists no_summary. split; [reflexivity|apply no_summary_nonempty].
    + exists (join (lit " ") ss). split; [reflexivity|].
      intros Hnil. rewrite Hnil in Hstrip. discriminate.
Qed.

Lemma summarize_text_placeholder_witness :
  summarize_text Sample.blank_summarizer Sample.text 3 = Ok no_summary.
Proof.
  apply (summarize_text_placeholder Sample.blank_summarizer Sample.text 3
           [lit " "; lit ""]); reflexivity.
Defined.

(** ** Entity extraction wrapper *)

(** C8: the entities come out in the order of the model, one dict per span,
    duplicates kept, each with the two keys [text] and [label] only; the
    character offsets of the spans have no influence. *)
Theorem extract_entities_order (text : str) (nlp : NLP) (ents : list Ent) :
  nlp text = Ok ents ->
  exists out,
    extract_entities text nlp = Ok out
    /\ length out = length ents
    /\ (forall i e, ents !! i = Some e -> out !! i = Some (entity_dict e))
    /\ (forall i v, out !! i = Some v ->
          exists e d, ents !! i = Some e /\ v = PDict d
                      /\ keys d = [lit "text"; lit "label"]
                      /\ dict_get (lit "text") d = Some (PStr (ent_text e))
                      /\ dict_get (lit "label") d = Some (PStr (ent_label e)))
    /\ (forall nlp' ents',
          nlp' text = Ok ents' ->
          List.map (fun e => (ent_text e, ent_label e)) ents'
            = List.map (fun e => (ent_text e, ent_label e)) ents ->
          extract_entities text nlp' = Ok out).
Proof.
  intros Hn. exists (List.map entity_dict ents).
  split; [|split; [|split; [|split]]].
  - unfold extract_entities. rewrite Hn. reflexivity.
  - apply length_map.
  - intros i e He. change (List.map entity_dict ents) with (entity_dict <$> ents).
    rewrite list_lookup_fmap, He. reflexivity.
  - intros i v. change (List.map entity_dict ents) with (entity_dict <$> ents).
    rewrite list_lookup_fmap. destruct (ents !! i) as [e|]; simpl; [|discriminate].
    intros [= <-]. exists e, [(lit "text", PStr (ent_text e)); (lit "label", PStr (ent_label e))].
    repeat split; reflexivity.
  - intros nlp' ents' Hn' Hmap. unfold extract_entities. rewrite Hn'. simpl. f_equal.
    clear Hn Hn'. revert ents' Hmap.
    induction ents as [|e r IH]; intros [|e' r']; simpl; try discriminate.
    + reflexivity.
    + intros [= Ht Hl Hr]. f_equal.
      * unfold entity_dict. rewrite Ht, Hl. reflexivity.
      * apply IH. exact Hr.
Qed.

Lemma extract_entities_order_witness :
  exists out,
    extract_entities Sample.text Sample.nlp = Ok out
    /\ out !! 0%nat = Some (entity_dict Sample.paris)
    /\ out !! 2%nat = Some (entity_dict Sample.paris_again).
Proof.
  destruct (extract_entities_order Sample.text Sample.nlp
              [Sample.paris; Sample.acme; Sample.paris_again] eq_refl)
    as (out & Hout & _ & Hi & _).
  exists out. split; [exact Hout|]. split; apply Hi; reflexivity.
Defined.

(** ** Sentiment classification wrapper *)

(** C1: the label is the specified function of the compound score alone, with
    inclusive thresholds. *)
Theorem classify_sentiment_thresholds
    (text : str) (analyzer : Analyzer) (scores : list (str * float)) (compound : float) :
  analyzer text = Ok scores ->
  dict_get (lit "compound") scores = Some compound ->
  classify_sentiment text analyzer
    = Ok (PDict [(lit "label", PStr (spec_label compound));
                 (lit "scores", scores_dict scores)])
  /\ ((0.05 <=? compound)%float = true -> spec_label compound = lit "positive")
  /\ ((0.05 <=? compound)%float = false -> (compound <=? -0.05)%float = true ->
      spec_label compound = lit "negative")
  /\ ((0.05 <=? compound)%float = false -> (compound <=? -0.05)%float = false ->
      spec_label compound = lit "neutral")
  /\ spec_label 0.05 = lit "positive"
  /\ spec_label (-0.05) = lit "negative"
  /\ spec_label 0 = lit "neutral"
  /\ spec_label 0.5 = lit "positive"
  /\ spec_label (-0.5) = lit "negative".
Proof.
  intros Ha Hc. unfold classify_sentiment, getitem. rewrite Ha. simpl. rewrite Hc. simpl.
  split; [reflexivity|].
  unfold spec_label.
  split; [intros ->; reflexivity|].
  split; [intros -> ->; reflexivity|].
  split; [intros -> ->; reflexivity|].
  repeat split; vm_compute; reflexivity.
Qed.

Lemma classify_sentiment_thresholds_witness :
  classify_sentiment Sample.text Sample.analyzer
  = Ok (PDict [(lit "label", PStr (lit "positive"));
               (lit "scores", scores_dict Sample.scores)]).
Proof.
  destruct (classify_sentiment_thresholds Sample.text Sample.analyzer Sample.scores
              0.05%float eq_refl eq_refl) as [H _].
  exact H.
Defined.

(** ** Runs of [main] *)

Lemma read_input_frame (args : Args) (w w1 : World) (r : result str) :
  read_input args w = (r, w1) -> w_fs w1 = w_fs w /\ w_calls w1 = w_calls w.
Proof.
  assert (Hi : forall w w1 r,
    bind (print (lit "Paste your text (end with an empty line):"))
         (fun _ => bind read_lines (fun lines => ret (join nl lines))) w = (r, w1) ->
    w_fs w1 = w_fs w /\ w_calls w1 = w_calls w).
  { clear. intros w w1 r. unfold bind, print, read_lines, ret. simpl.
    destruct (input_loop (w_stdin w) []) as [[lines|e] rest]; intros [= <- <-]; simpl; auto. }
  unfold read_input.
  destruct (input args) as [p|]; [destruct (truthy p)|]; try apply Hi.
  unfold read_text. destruct (w_fs w !! p); intros [= <- <-]; auto.
Qed.

Lemma load_model_frame (E : Env) (w w1 : World) (r : result NLP) :
  load_model E w = (r, w1) -> w_fs w1 = w_fs w.
Proof.
  unfold load_model, try_except, spacy_load, bind, print, download. simpl.
  destruct (e_spacy_load E _) as [nlp|e]; [intros [= <- <-]; reflexivity|].
  destruct (is_OSError e); [|intros [= <- <-]; reflexivity].
  destruct (e_download E); intros [= <- <-]; reflexivity.
Qed.

Lemma html_name_cons (E : Env) : exists c r, html_name E = c :: r.
Proof. unfold html_name. simpl. eauto. Qed.

Lemma render_rows_ok (E : Env) (ents : list Ent) :
  exists rows,
    rmap (render_row E)
         (List.map (fun ent => PDict [(lit "text", PStr (ent_text ent));
                                      (lit "label", PStr (ent_label ent))]) ents)
    = Ok rows.
Proof.
  induction ents as [|e r [rows IH]]; simpl.
  - eauto.
  - rewrite IH. unfold render_row. simpl. eauto.
Qed.

(** The report of a record built by [main] always renders. *)
Lemma render_html_results (E : Env) (text : str) (nlp : NLP) (analyzer : Analyzer)
    (summary : str) (entities : list pyval) (sentiment : pyval) :
  extract_entities text nlp = Ok entities ->
  classify_sentiment text analyzer = Ok sentiment ->
  exists h, render_html E (results summary entities sentiment text) = Ok h.
Proof.
  unfold extract_entities, classify_sentiment, getitem.
  destruct (nlp text) as [ents|]; simpl; [|discriminate]. intros [= <-].
  destruct (analyzer text) as [scores|]; simpl; [|discriminate].
  destruct (dict_get _ scores) as [c|]; simpl; [|discriminate]. intros [= <-].
  destruct (render_rows_ok E ents) as [rows Hrows].
  unfold render_html, results. simpl. rewrite Hrows. simpl. eauto.
Qed.

(** Every run of [main] either fails with the files untouched, or gets as far
    as writing the JSON file; then it ends well, or the HTML file cannot be
    opened. *)
Lemma main_run (E : Env) (cl : CmdLine) (w w' : World) (r : result unit) :
  main E cl w = (r, w') ->
  let args := parse_args cl in
  (exists e, r = Raise e /\ w_fs w' = w_fs w)
  \/ exists text w1 nlp w2 analyzer summary entities sentiment,
       read_input args w = (Ok text, w1)
       /\ load_model E (after_print (lit " Loading spaCy model...") w1) = (Ok nlp, w2)
       /\ e_analyzer E = Ok analyzer
       /\ summarize_text (e_summarizer E) text (sentences args) = Ok summary
       /\ extract_entities text nlp = Ok entities
       /\ classify_sentiment text analyzer = Ok sentiment
       /\ e_open_w E (json_name E args) = None
       /\ let res := results summary entities sentiment text in
          let fs1 := <[json_name E args := json_text E res]> (w_fs w) in
          (no_html args = true /\ r = Ok tt /\ w_fs w' = fs1)
          \/ (no_html args = false /\ e_open_w E (html_name E) = None /\ r = Ok tt
              /\ exists h, render_html E res = Ok h /\ w_fs w' = <[html_name E := h]> fs1)
          \/ (no_html args = false /\ w_fs w' = fs1
              /\ exists e, e_open_w E (html_name E) = Some e /\ r = Raise e).
Proof.
  intros Hrun args. unfold main in Hrun. fold args in Hrun.
  unfold bind at 1 in Hrun.
  destruct (read_input args w) as [[text|e] w1] eqn:Hread;
    [|injection Hrun as <- <-; left; exists e; split;
      [reflexivity|apply (read_input_frame _ _ _ _ Hread)]].
  destruct (read_input_frame _ _ _ _ Hread) as [Hfs1 _].
  unfold bind at 1 in Hrun. cbn [print] in Hrun. fold (after_print (lit " Loading spaCy model...") w1) in Hrun.
  unfold bind at 1 in Hrun.
  destruct (load_model E _) as [[nlp|e] w2] eqn:Hload.
  2:{ injection Hrun as <- <-. left. exists e. split; [reflexivity|].
      rewrite (load_model_frame _ _ _ _ Hload). exact Hfs1. }
  assert (Hfs2 : w_fs w2 = w_fs w).
  { rewrite (load_model_frame _ _ _ _ Hload). exact Hfs1. }
  unfold bind at 1 in Hrun. unfold lift at 1 in Hrun.
  destruct (e_analyzer E) as [analyzer|e] eqn:Han;
    [|injection Hrun as <- <-; left; exists e; split; [reflexivity|exact Hfs2]].
  unfold bind at 1 in Hrun. cbn [print] in Hrun.
  unfold bind at 1 in Hrun. unfold lift at 1 in Hrun.
  destruct (summarize_text _ text _) as [summary|e] eqn:Hsum;
    [|injection Hrun as <- <-; left; exists e; split; [reflexivity|exact Hfs2]].
  unfold bind at 1 in Hrun. cbn [print] in Hrun.
  unfold bind at 1 in Hrun. unfold lift at 1 in Hrun.
  destruct (extract_entities text nlp) as [entities|e] eqn:Hent;
    [|injection Hrun as <- <-; left; exists e; split; [reflexivity|exact Hfs2]].
  unfold bind at 1 in Hrun. cbn [print] in Hrun.
  unfold bind at 1 in Hrun. unfold lift at 1 in Hrun.
  destruct (classify_sentiment text analyzer) as [sentiment|e] eqn:Hcls;
    [|injection Hrun as <- <-; left; exists e; split; [reflexivity|exact Hfs2]].
  cbv zeta in Hrun.
  unfold bind at 1 in Hrun. unfold save_json, write_text in Hrun.
  cbn [w_fs w_stdin w_stdout w_calls] in Hrun.
  fold (json_text E (results summary entities sentiment text)) in Hrun.
  destruct (json_name E args) as [|c jn] eqn:Hjn.
  { injection Hrun as <- <-. left. exists FileNotFoundError. split; [reflexivity|exact Hfs2]. }
  destruct (e_open_w E (c :: jn)) as [e|] eqn:Hopen.
  { injection Hrun as <- <-. left. exists e. split; [reflexivity|exact Hfs2]. }
  right. exists text, w1, nlp, w2, analyzer, summary, entities, sentiment.
  repeat (split; [first [assumption|reflexivity]|]).
  cbv zeta. rewrite <- Hfs2.
  unfold bind at 1 in Hrun. cbn [print w_fs w_stdin w_stdout w_calls] in Hrun.
  destruct (no_html args) eqn:Hno; cbn [negb] in Hrun.
  - left. unfold ret in Hrun. injection Hrun as <- <-. auto.
  - right.
    destruct (render_html_results E text nlp analyzer summary _ _ Hent Hcls) as [h Hh].
    destruct (html_name_cons E) as (c' & hn & Hhn).
    unfold bind at 1 in Hrun. unfold make_html_report, bind, lift, write_text in Hrun.
    rewrite Hh in Hrun. rewrite Hhn in Hrun. rewrite <- Hhn in Hrun.
    cbn [w_fs w_stdin w_stdout w_calls] in Hrun.
    destruct (e_open_w E (html_name E)) as [e|] eqn:Hopen'.
    + right. injection Hrun as <- <-. split; [reflexivity|]. split; [reflexivity|].
      exists e. auto.
    + left. cbn [print w_fs] in Hrun. injection Hrun as <- <-.
      split; [reflexivity|]. split; [reflexivity|]. split; [reflexivity|].
      exists h. auto.
Qed.

(** ** Failure and persistence *)




(** ** Output names *)

Lemma digit_char (n : N) : is_digit (48 + n mod 10) = true.
Proof.
  unfold is_digit. pose proof (N.mod_upper_bound n 10 ltac:(discriminate)) as H.
  revert H. generalize (n mod 10). intros m H.
  apply andb_true_iff. split; apply N.leb_le; lia.
Qed.

(** The stamp reads YYYYMMDD_HHMMSS: eight digits, an underscore, six digits. *)
Lemma strftime_shape (d : datetime) :
  exists date time,
    strftime d = date ++ lit "_" ++ time
    /\ length date = 8%nat /\ forallb is_digit date = true
    /\ length time = 6%nat /\ forallb is_digit time = true.
Proof.
  exists (zpad4 (year d) ++ zpad2 (month d) ++ zpad2 (day d)),
         (zpad2 (hour d) ++ zpad2 (minute d) ++ zpad2 (second d)).
  split; [unfold strftime; rewrite <- !app_assoc; reflexivity|].
  unfold zpad4, zpad2. cbn [app length forallb]. rewrite !digit_char.
  repeat split; reflexivity.
Qed.

(** C4: an explicit, non-empty [--output] value is the name of the JSON file
    as it stands; the report is still [report_<stamp>.html], the stamp reading
    YYYYMMDD_HHMMSS; and a run that ends well has written under these names. *)
Theorem explicit_output_name (E : Env) (cl : CmdLine) (o : str) :
  cl_output cl = Some o -> o <> [] ->
  json_name E (parse_args cl) = o
  /\ html_name E = lit "report_" ++ strftime (e_now E) ++ lit ".html"
  /\ (exists date time,
        strftime (e_now E) = date ++ lit "_" ++ time
        /\ length date = 8%nat /\ forallb is_digit date = true
        /\ length time = 6%nat /\ forallb is_digit time = true)
  /\ (forall w w', main E cl w = (Ok tt, w') ->
        exists res,
          (cl_no_html cl = true /\ w_fs w' = <[o := json_text E res]> (w_fs w))
          \/ (cl_no_html cl = false
              /\ exists h, w_fs w' = <[html_name E := h]> (<[o := json_text E res]> (w_fs w)))).
Proof.
  intros Ho Hne.
  assert (Hj : json_name E (parse_args cl) = o).
  { unfold json_name, parse_args. simpl. rewrite Ho. destruct o; [contradiction|reflexivity]. }
  split; [exact Hj|]. split; [reflexivity|]. split; [apply strftime_shape|].
  intros w w' Hrun. destruct (main_run _ _ _ _ _ Hrun) as [(e' & Hr & _)|Hright];
    [discriminate Hr|].
  destruct Hright as (text & w1 & nlp & w2 & an & summary & entities & sentiment
                      & _ & _ & _ & _ & _ & _ & _ & Hout).
  cbv zeta in Hout. rewrite Hj in Hout.
  exists (results summary entities sentiment text).
  destruct Hout as [(Hno & _ & Hfs)|[(Hno & _ & _ & h & _ & Hfs)|(_ & _ & e' & _ & Hr)]].
  - left. auto.
  - right. split; [exact Hno|]. exists h. exact Hfs.
  - discriminate Hr.
Qed.

Lemma explicit_output_name_witness :
  json_name Sample.env (parse_args Sample.cmdline_json) = lit "foo.json"
  /\ html_name Sample.env = lit "report_20240102_030405.html".
Proof.
  destruct (explicit_output_name Sample.env Sample.cmdline_json (lit "foo.json") eq_refl
              ltac:(discriminate)) as (Hj & Hh & _).
  split; [exact Hj|exact Hh].
Defined.

(** ** The HTML flag *)



(** ** The original text *)



(** ** Empty output name *)

(** C10: [--output] with the empty string runs exactly as without the option,
    and the JSON file then gets the stamped name, which is not empty. *)
Theorem empty_output_is_default (E : Env) (cl : CmdLine) (w : World) :
  main E (set_output (Some []) cl) w = main E (set_output None cl) w
  /\ json_name E (parse_args (set_output (Some []) cl))
     = lit "results_" ++ timestamp E ++ lit ".json"
  /\ json_name E (parse_args (set_output (Some []) cl)) <> [].
Proof.
  split; [reflexivity|]. split; [reflexivity|]. discriminate.
Qed.

(** ** Loading the NER model *)

Lemma load_count_app (w : World) (evs : list event) :
  length (List.filter (fun ev => match ev with EvLoad => true | _ => false end)
                      (w_calls w ++ evs))
  = (load_count w
     + length (List.filter (fun ev => match ev with EvLoad => true | _ => false end) evs))%nat.
Proof. unfold load_count. rewrite List.filter_app, length_app. reflexivity. Qed.

(** What [load_model] does when the first [spacy.load] raises an [OSError]. *)
Lemma load_model_missing (E : Env) (w : World) (e : exn) :
  e_spacy_load E (load_count w) = Raise e -> is_OSError e = true ->
  load_model E w
  = match e_download E with
    | Ok _ =>
        (e_spacy_load E (S (load_count w)),
         mkWorld (w_fs w) (w_stdin w) (w_stdout w ++ [lit "Downloading spaCy model..."])
                 (w_calls w ++ [EvLoad; EvDownload; EvLoad]))
    | Raise e' =>
        (Raise e',
         mkWorld (w_fs w) (w_stdin w) (w_stdout w ++ [lit "Downloading spaCy model..."])
                 (w_calls w ++ [EvLoad; EvDownload]))
    end.
Proof.
  intros Hload Hos.
  unfold load_model, try_except, spacy_load at 1. rewrite Hload, Hos.
  unfold bind, print, download. cbn [w_fs w_stdin w_stdout w_calls].
  destruct (e_download E) as [[]|e'].
  - unfold spacy_load, load_count at 1. cbn [w_fs w_stdin w_stdout w_calls].
    rewrite <- !app_assoc. cbn [app]. f_equal. f_equal.
    rewrite load_count_app. cbn. lia.
  - rewrite <- !app_assoc. reflexivity.
Qed.

(** After the input is read, the only calls to the loader are those of
    [load_model], and its failure is the failure of the run. *)
Lemma main_calls (E : Env) (cl : CmdLine) (w w' : World) (r : result unit)
    (text : str) (w1 : World) :
  read_input (parse_args cl) w = (Ok text, w1) ->
  main E cl w = (r, w') ->
  exists rl w2,
    load_model E (after_print (lit " Loading spaCy model...") w1) = (rl, w2)
    /\ w_calls w' = w_calls w2
    /\ (forall e, rl = Raise e -> r = Raise e /\ w_fs w' = w_fs w).
Proof.
  intros Hread Hrun. unfold main in Hrun.
  destruct (read_input_frame _ _ _ _ Hread) as [Hfs1 _].
  unfold bind at 1 in Hrun. rewrite Hread in Hrun.
  unfold bind at 1 in Hrun. cbn [print] in Hrun.
  fold (after_print (lit " Loading spaCy model...") w1) in Hrun.
  unfold bind at 1 in Hrun.
  destruct (load_model E _) as [rl w2] eqn:Hload. exists rl, w2.
  split; [reflexivity|].
  pose proof (load_model_frame _ _ _ _ Hload) as Hfs2. simpl in Hfs2.
  destruct rl as [nlp|e].
  2:{ injection Hrun as <- <-. split; [reflexivity|]. intros e' [= <-].
      split; [reflexivity|]. rewrite Hfs2. exact Hfs1. }
  split; [|intros e He; discriminate He].
  unfold bind at 1 in Hrun. unfold lift at 1 in Hrun.
  destruct (e_analyzer E) as [analyzer|e]; [|injection Hrun as <- <-; reflexivity].
  unfold bind at 1 in Hrun. cbn [print] in Hrun.
  unfold bind at 1 in Hrun. unfold lift at 1 in Hrun.
  destruct (summarize_text _ text _) as [summary|e]; [|injection Hrun as <- <-; reflexivity].
  unfold bind at 1 in Hrun. cbn [print] in Hrun.
  unfold bind at 1 in Hrun. unfold lift at 1 in Hrun.
  destruct (extract_entities text nlp) as [entities|e];
    [|injection Hrun as <- <-; reflexivity].
  unfold bind at 1 in Hrun. cbn [print] in Hrun.
  unfold bind at 1 in Hrun. unfold lift at 1 in Hrun.
  destruct (classify_sentiment text analyzer) as [sentiment|e];
    [|injection Hrun as <- <-; reflexivity].
  cbv zeta in Hrun.
  unfold bind at 1 in Hrun. unfold save_json, write_text in Hrun.
  cbn [w_fs w_stdin w_stdout w_calls] in Hrun.
  destruct (json_name E _) as [|c jn]; [injection Hrun as <- <-; reflexivity|].
  destruct (e_open_w E (c :: jn)); [injection Hrun as <- <-; reflexivity|].
  unfold bind at 1 in Hrun. cbn [print w_fs w_stdin w_stdout w_calls] in Hrun.
  destruct (no_html _); cbn [negb] in Hrun.
  - unfold ret in Hrun. injection Hrun as <- <-. reflexivity.
  - unfold bind at 1 in Hrun. unfold make_html_report, bind, lift, write_text in Hrun.
    destruct (render_html E _); [|injection Hrun as <- <-; reflexivity].
    destruct (html_name E); [injection Hrun as <- <-; reflexivity|].
    destruct (e_open_w E _); injection Hrun as <- <-; reflexivity.
Qed.

(** C9: when the first load raises an [OSError] and the download goes
    through, the run calls load, download, load and nothing more; the second
    load decides: its pipeline is the one used, or its exception ends the run
    with no file written. *)
Theorem missing_model_one_retry (E : Env) (cl : CmdLine) (w w1 w' : World)
    (text : str) (e : exn) (r : result unit) :
  read_input (parse_args cl) w = (Ok text, w1) ->
  e_spacy_load E (load_count w) = Raise e -> is_OSError e = true ->
  e_download E = Ok tt ->
  main E cl w = (r, w') ->
  w_calls w' = w_calls w ++ [EvLoad; EvDownload; EvLoad]
  /\ (exists w2,
        load_model E (after_print (lit " Loading spaCy model...") w1)
        = (e_spacy_load E (S (load_count w)), w2))
  /\ (forall e2, e_spacy_load E (S (load_count w)) = Raise e2 ->
        r = Raise e2 /\ w_fs w' = w_fs w).
Proof.
  intros Hread Hload Hos Hdl Hrun.
  destruct (read_input_frame _ _ _ _ Hread) as [_ Hcalls1].
  assert (Hcount : load_count (after_print (lit " Loading spaCy model...") w1) = load_count w).
  { unfold load_count, after_print. cbn [w_calls]. rewrite Hcalls1. reflexivity. }
  destruct (main_calls _ _ _ _ _ _ _ Hread Hrun) as (rl & w2 & Hlm & Hcalls & Hfail).
  rewrite (load_model_missing E _ e) in Hlm by (try rewrite Hcount; assumption).
  rewrite Hdl, Hcount in Hlm. injection Hlm as <- <-.
  cbn [w_calls after_print] in Hcalls. rewrite Hcalls1 in Hcalls.
  split; [exact Hcalls|]. split.
  - rewrite (load_model_missing E _ e) by (try rewrite Hcount; assumption).
    rewrite Hdl, Hcount. eexists. reflexivity.
  - intros e2 He2. apply Hfail. exact He2.
Qed.

Lemma missing_model_one_retry_witness :
  w_calls (snd (main Sample.missing_env Sample.cmdline Sample.world))
  = [EvLoad; EvDownload; EvLoad]
  /\ fst (main Sample.missing_env Sample.cmdline Sample.world) = Raise OSError
  /\ w_calls (snd (main Sample.fresh_env Sample.cmdline Sample.world))
     = [EvLoad; EvDownload; EvLoad]
  /\ fst (main Sample.fresh_env Sample.cmdline Sample.world) = Ok tt.
Proof.
  split; [|split; [|split]].
  - apply (missing_model_one_retry Sample.missing_env Sample.cmdline Sample.world
             (snd (read_input (parse_args Sample.cmdline) Sample.world))
             _ Sample.text OSError
             (fst (main Sample.missing_env Sample.cmdline Sample.world)));
      vm_compute; reflexivity.
  - apply (missing_model_one_retry Sample.missing_env Sample.cmdline Sample.world
             (snd (read_input (parse_args Sample.cmdline) Sample.world))
             (snd (main Sample.missing_env Sample.cmdline Sample.world))
             Sample.text OSError
             (fst (main Sample.missing_env Sample.cmdline Sample.world)));
      vm_compute; reflexivity.
  - apply (missing_model_one_retry Sample.fresh_env Sample.cmdline Sample.world
             (snd (read_input (parse_args Sample.cmdline) Sample.world))
             _ Sample.text OSError
             (fst (main Sample.fresh_env Sample.cmdline Sample.world)));
      vm_compute; reflexivity.
  - vm_compute. reflexivity.
Defined.

(** ** JSON: what is written can be read back *)

Lemma skip_ws_start (c : char) (r : str) : is_ws c = false -> skip_ws (c :: r) = c :: r.
Proof. intros H. simpl. rewrite H. reflexivity. Qed.

Lemma skip_ws_spaces (n : nat) (s : str) : skip_ws (repeat 32 n ++ s) = skip_ws s.
Proof. induction n as [|n IH]; simpl; [reflexivity|exact IH]. Qed.

Lemma skip_ws_newline_indent (level : nat) (s : str) :
  skip_ws (newline_indent level ++ s) = skip_ws s.
Proof. unfold newline_indent. simpl. apply skip_ws_spaces. Qed.

Lemma lt32_cases (c : N) : c < 32 -> In c (List.map N.of_nat (seq 0 32)).
Proof.
  intros H. apply in_map_iff. exists (N.to_nat c). split; [lia|].
  apply in_seq. lia.
Qed.

(** Reading one escaped character gives the character back. *)
Lemma scanstring_escape_char (c : char) (rest : str) :
  scanstring (escape_char c ++ rest) = push c (scanstring rest).
Proof.
  destruct (N.ltb_spec c 32) as [Hlt|Hge].
  - apply lt32_cases in Hlt. simpl in Hlt.
    repeat (destruct Hlt as [<-|Hlt]; [reflexivity|]). contradiction.
  - unfold escape_char, escape_dct.
    destruct (N.eqb_spec c 92) as [->|H92]; [reflexivity|].
    destruct (N.eqb_spec c 34) as [->|H34]; [reflexivity|].
    assert (Hne : forall k, k < 32 -> (c =? k) = false)
      by (intros k Hk; apply N.eqb_neq; lia).
    rewrite !Hne by lia.
    assert (Hlt : (c <? 32) = false) by (apply N.ltb_ge; exact Hge).
    rewrite Hlt. cbn [app scanstring].
    apply N.eqb_neq in H92, H34. rewrite H92, H34, Hlt. reflexivity.
Qed.

Lemma scanstring_escaped (s rest : str) :
  scanstring (concat (List.map escape_char s) ++ 34 :: rest) = Some (s, rest).
Proof.
  induction s as [|c s IH]; [reflexivity|].
  cbn [List.map concat]. rewrite <- app_assoc, scanstring_escape_char, IH. reflexivity.
Qed.

Lemma encoder_unfold (s : str) :
  encoder false s = 34 :: concat (List.map escape_char s) ++ [34].
Proof. reflexivity. Qed.

Lemma span_app_stop (p : char -> bool) (s : str) (c : char) (r : str) :
  p c = false ->
  span p (s ++ c :: r) = (fst (span p s), snd (span p s) ++ c :: r).
Proof.
  intros Hc. induction s as [|d s IH]; simpl.
  - rewrite Hc. reflexivity.
  - destruct (p d); [|reflexivity].
    rewrite IH. destruct (span p s). reflexivity.
Qed.

Lemma delim_not_digit (c : char) : is_delim c = true -> is_digit c = false.
Proof.
  unfold is_delim. intros H. apply negb_true_iff in H.
  repeat (apply orb_false_iff in H; destruct H as [H ?]). exact H.
Qed.

Lemma delim_tests (c : char) :
  is_delim c = true ->
  (c =? 46) = false /\ (c =? 101) = false /\ (c =? 69) = false
  /\ (c =? 43) = false /\ (c =? 45) = false.
Proof.
  unfold is_delim. intros H. apply negb_true_iff in H.
  repeat (apply orb_false_iff in H; destruct H as [H ?]). auto.
Qed.

Lemma match_int_app (s i b : str) (c : char) (r : str) :
  is_delim c = true ->
  match_int s = Some (i, b) -> match_int (s ++ c :: r) = Some (i, b ++ c :: r).
Proof.
  intros Hc. pose proof (delim_not_digit c Hc) as Hd.
  destruct s as [|d s]; simpl; [discriminate|].
  destruct (d =? 48); [intros [= <- <-]; reflexivity|].
  destruct ((49 <=? d) && (d <=? 57)); [|discriminate].
  rewrite (span_app_stop is_digit s c r Hd).
  destruct (span is_digit s) as [ds r']. intros [= <- <-]. reflexivity.
Qed.

Lemma match_frac_app (s : str) (c : char) (r : str) :
  is_delim c = true ->
  match_frac (s ++ c :: r) = (fst (match_frac s), snd (match_frac s) ++ c :: r).
Proof.
  intros Hc. pose proof (delim_not_digit c Hc) as Hd.
  destruct (delim_tests c Hc) as (H46 & _).
  destruct s as [|d s]; simpl.
  - rewrite H46. reflexivity.
  - destruct (d =? 46); [|reflexivity].
    rewrite (span_app_stop is_digit s c r Hd).
    destruct (span is_digit s) as [[|x ds] r']; reflexivity.
Qed.

Lemma match_exp_app (s : str) (c : char) (r : str) :
  is_delim c = true ->
  match_exp (s ++ c :: r) = (fst (match_exp s), snd (match_exp s) ++ c :: r).
Proof.
  intros Hc. pose proof (delim_not_digit c Hc) as Hd.
  destruct (delim_tests c Hc) as (_ & H101 & H69 & H43 & H45).
  destruct s as [|d s]; simpl.
  - rewrite H101, H69. reflexivity.
  - destruct ((d =? 101) || (d =? 69)); [|reflexivity].
    destruct s as [|x s]; simpl.
    + rewrite H45, H43. simpl. rewrite Hd. reflexivity.
    + destruct ((x =? 45) || (x =? 43)).
      * rewrite (span_app_stop is_digit s c r Hd).
        destruct (span is_digit s) as [[|y ds] r']; reflexivity.
      * change (x :: s ++ c :: r) with ((x :: s) ++ c :: r).
        rewrite (span_app_stop is_digit (x :: s) c r Hd).
        destruct (span is_digit (x :: s)) as [[|y ds] r']; reflexivity.
Qed.

(** A number read from a text is read the same when the text goes on with a
    character that cannot continue a number. *)
Lemma match_number_app (s l b : str) (c : char) (r : str) :
  is_delim c = true ->
  match_number s = Some (l, b) -> match_number (s ++ c :: r) = Some (l, b ++ c :: r).
Proof.
  intros Hc. destruct (delim_tests c Hc) as (_ & _ & _ & _ & H45).
  unfold match_number.
  assert (Hgen : forall sg s0,
    match match_int s0 with
    | Some (i, r1) =>
        let '(f, r2) := match_frac r1 in
        let '(e, r3) := match_exp r2 in Some (sg ++ i ++ f ++ e, r3)
    | None => None
    end = Some (l, b) ->
    match match_int (s0 ++ c :: r) with
    | Some (i, r1) =>
        let '(f, r2) := match_frac r1 in
        let '(e, r3) := match_exp r2 in Some (sg ++ i ++ f ++ e, r3)
    | None => None
    end = Some (l, b ++ c :: r)).
  { intros sg s0. destruct (match_int s0) as [[i r1]|] eqn:Hi; [|discriminate].
    rewrite (match_int_app _ _ _ _ r Hc Hi).
    rewrite (match_frac_app r1 c r Hc). destruct (match_frac r1) as [f r2]. simpl.
    rewrite (match_exp_app r2 c r Hc). destruct (match_exp r2) as [e r3]. simpl.
    intros [= <- <-]. reflexivity. }
  destruct s as [|d s].
  - simpl. discriminate.
  - cbn [app]. destruct (d =? 45); apply Hgen.
Qed.

Lemma match_number_head (s l b : str) :
  match_number s = Some (l, b) ->
  exists c t, s = c :: t /\ (c = 45 \/ is_digit c = true).
Proof.
  unfold match_number. destruct s as [|c t]; [discriminate|].
  intros H. exists c, t. split; [reflexivity|].
  destruct (N.eqb_spec c 45) as [->|Hne]; [left; reflexivity|right].
  unfold match_int in H.
  destruct (N.eqb_spec c 48) as [->|H48]; [reflexivity|].
  unfold is_digit.
  destruct ((49 <=? c) && (c <=? 57)) eqn:Hd; [|discriminate].
  apply andb_true_iff in Hd. destruct Hd as [H1 H2].
  apply andb_true_iff. split; [|exact H2].
  apply N.leb_le in H1. apply N.leb_le. lia.
Qed.

Lemma scan_number_constant (w : string) (rest : str) :
  w = "NaN"%string \/ w = "Infinity"%string \/ w = "-Infinity"%string ->
  forall fuel, scan_once (S fuel) (lit w ++ rest) = Some (JNum (lit w), rest).
Proof.
  intros [->|[->| ->]] fuel; reflexivity.
Qed.

Lemma scan_once_number (s rest : str) (fuel : nat) :
  match_number s = Some (s, []) -> ok_rest rest ->
  scan_once (S fuel) (s ++ rest) = Some (JNum s, rest).
Proof.
  intros Hs Hrest.
  assert (Hm : match_number (s ++ rest) = Some (s, rest)).
  { destruct Hrest as [->|(c & r & -> & Hc)].
    - rewrite app_nil_r. exact Hs.
    - apply (match_number_app s s [] c r Hc Hs). }
  destruct (match_number_head _ _ _ Hs) as (c & t & -> & Hc).
  cbn [app] in *. cbn [scan_once].
  assert (Hne : forall k, k < 45 \/ 57 < k -> (c =? k) = false).
  { intros k Hk. apply N.eqb_neq. destruct Hc as [->|Hd]; [lia|].
    unfold is_digit in Hd. apply andb_true_iff in Hd. destruct Hd as [H1 H2].
    apply N.leb_le in H1, H2. lia. }
  rewrite !Hne by lia.
  assert (Hk : scan_keyword (c :: t ++ rest) = None).
  { unfold scan_keyword. cbn [lit list_ascii_of_string List.map strip_prefix].
    assert (Hsym : forall k, k < 45 \/ 57 < k -> (k =? c) = false)
      by (intros k Hk; rewrite N.eqb_sym; apply Hne; exact Hk).
    cbn. rewrite !Hsym by (cbn; lia). reflexivity. }
  rewrite Hk. unfold scan_number. rewrite Hm. reflexivity.
Qed.

Lemma pyval_ind' (P : pyval -> Prop) :
  (forall s, P (PStr s)) ->
  (forall f, P (PFloat f)) ->
  (forall l, Forall P l -> P (PList l)) ->
  (forall d, Forall (fun kv => P (snd kv)) d -> P (PDict d)) ->
  forall v, P v.
Proof.
  intros HS HF HL HD. fix IH 1. intros [s|f|l|d].
  - apply HS.
  - apply HF.
  - apply HL. induction l as [|x l IHl]; constructor; [apply IH|exact IHl].
  - apply HD. induction d as [|kv d IHd]; constructor; [apply IH|exact IHd].
Qed.

Section RoundTrip.
Variable float_repr : float -> str.
Hypothesis float_repr_ok : repr_ok float_repr.

Local Abbreviation enc := (iterencode float_repr false).
Local Abbreviation tree := (tree_of float_repr).
Local Abbreviation scans_back := (scans_back float_repr).
Local Abbreviation member := (member float_repr).

Lemma floatstr_cases (f : float) :
  floatstr float_repr f = lit "NaN" \/ floatstr float_repr f = lit "Infinity"
  \/ floatstr float_repr f = lit "-Infinity"
  \/ match_number (floatstr float_repr f) = Some (floatstr float_repr f, []).
Proof.
  unfold floatstr. pose proof (float_repr_ok f) as H.
  destruct (f =? f)%float; simpl; [|auto].
  destruct (f =? infinity)%float; [auto|].
  destruct (f =? neg_infinity)%float; [auto|].
  right. right. right. apply H; reflexivity.
Qed.

Lemma scan_once_floatstr (f : float) (rest : str) (fuel : nat) :
  ok_rest rest ->
  scan_once (S fuel) (floatstr float_repr f ++ rest)
  = Some (JNum (floatstr float_repr f), rest).
Proof.
  intros Hrest. destruct (floatstr_cases f) as [H|[H|[H|H]]].
  - rewrite H. apply scan_number_constant. auto.
  - rewrite H. apply scan_number_constant. auto.
  - rewrite H. apply scan_number_constant. auto.
  - apply scan_once_number; assumption.
Qed.

Lemma floatstr_start (f : float) : value_start (floatstr float_repr f).
Proof.
  destruct (floatstr_cases f) as [H|[H|[H|H]]];
    try (rewrite H; eexists _, _; split; [reflexivity|split; reflexivity]).
  destruct (match_number_head _ _ _ H) as (c & t & Hs & Hc).
  exists c, t. split; [exact Hs|].
  assert (Hr : 45 <= c <= 57).
  { destruct Hc as [->|Hd]; [lia|].
    unfold is_digit in Hd. apply andb_true_iff in Hd. destruct Hd as [H1 H2].
    apply N.leb_le in H1, H2. lia. }
  unfold is_ws. rewrite !orb_false_iff.
  repeat split; apply N.eqb_neq; lia.
Qed.

Lemma enc_start (v : pyval) (level : nat) : value_start (enc v level).
Proof.
  destruct v as [s|f|[|x l]|[|kv d]];
    try (eexists _, _; split; [reflexivity|split; reflexivity]).
  apply floatstr_start.
Qed.

Lemma skip_ws_value (s rest : str) : value_start s -> skip_ws (s ++ rest) = s ++ rest.
Proof. intros (c & t & -> & Hc & _). apply skip_ws_start. exact Hc. Qed.

Lemma join_start (sep : str) (x : str) (xs : list str) :
  value_start x -> value_start (join sep (x :: xs)).
Proof.
  intros (c & t & -> & Hc). destruct xs as [|y ys]; simpl; eexists _, _; eauto.
Qed.

Lemma value_start_app (s t : str) : value_start s -> value_start (s ++ t).
Proof. intros (c & u & -> & Hc). eexists _, _. split; [reflexivity|exact Hc]. Qed.

Lemma ok_rest_comma (s : str) : ok_rest (44 :: s).
Proof. right. exists 44, s. split; reflexivity. Qed.

Lemma ok_rest_newline (level : nat) (s : str) : ok_rest (newline_indent level ++ s).
Proof. right. eexists _, _. split; reflexivity. Qed.

Lemma array_loop_join (l : list pyval) :
  Forall scans_back l -> l <> [] ->
  forall inner outer rest fuel,
    (list_sum (List.map (fun v => S (size v)) l) <= fuel)%nat ->
    array_loop fuel
      (join (lit "," ++ newline_indent inner) (List.map (fun v => enc v inner) l)
       ++ newline_indent outer ++ 93 :: rest)
    = Some (List.map tree l, rest).
Proof.
  induction 1 as [|x l Hx Hl IH]; [contradiction|]. intros _ inner outer rest fuel Hfuel.
  simpl in Hfuel.
  destruct fuel as [|fuel]; [lia|]. cbn [array_loop].
  assert (Hfx : (size x <= fuel)%nat) by lia.
  assert (Hfl : (list_sum (List.map (fun v => S (size v)) l) <= fuel)%nat) by lia.
  destruct l as [|y l].
  - cbn [List.map join].
    rewrite (Hx inner _ fuel (ok_rest_newline outer _) Hfx).
    rewrite skip_ws_newline_indent. reflexivity.
  - set (sep := lit "," ++ newline_indent inner).
    assert (Hsep : forall z, sep ++ z = 44 :: newline_indent inner ++ z) by reflexivity.
    change (join sep (List.map (fun v => enc v inner) (x :: y :: l)))
      with (enc x inner ++ sep ++ join sep (List.map (fun v => enc v inner) (y :: l))).
    rewrite <- !app_assoc, Hsep.
    rewrite (Hx inner _ fuel (ok_rest_comma _) Hfx).
    rewrite skip_ws_start by reflexivity.
    change (44 =? 93) with false. change (44 =? 44) with true. cbv iota.
    rewrite skip_ws_newline_indent.
    rewrite skip_ws_value
      by (apply (join_start _ (enc y inner)), enc_start).
    unfold sep. rewrite IH by (try discriminate; exact Hfl).
    reflexivity.
Qed.

Lemma member_unfold (inner : nat) (kv : str * pyval) (z : str) :
  member inner kv ++ z
  = 34 :: concat (List.map escape_char (fst kv))
       ++ 34 :: 58 :: 32 :: enc (snd kv) inner ++ z.
Proof.
  unfold member. rewrite encoder_unfold. cbn [app]. rewrite <- !app_assoc. reflexivity.
Qed.

Lemma object_loop_join (d : list (str * pyval)) :
  Forall (fun kv => scans_back (snd kv)) d -> d <> [] ->
  forall inner outer rest fuel,
    (list_sum (List.map (fun kv => S (size (snd kv))) d) <= fuel)%nat ->
    exists t,
      join (lit "," ++ newline_indent inner) (List.map (member inner) d)
      ++ newline_indent outer ++ 125 :: rest = 34 :: t
      /\ object_loop fuel t
         = Some (List.map (fun kv => (fst kv, tree (snd kv))) d, rest).
Proof.
  induction 1 as [|kv d Hkv Hd IH]; [contradiction|].
  intros _ inner outer rest fuel Hfuel. simpl in Hfuel.
  destruct fuel as [|fuel]; [lia|].
  assert (Hfx : (size (snd kv) <= fuel)%nat) by lia.
  assert (Hfl : (list_sum (List.map (fun kv => S (size (snd kv))) d) <= fuel)%nat) by lia.
  destruct d as [|kv' d].
  - cbn [List.map join]. rewrite member_unfold. eexists. split; [reflexivity|].
    cbn [object_loop]. rewrite scanstring_escaped.
    rewrite skip_ws_start by reflexivity.
    change (58 =? 58) with true. cbv iota.
    change (skip_ws (32 :: ?z)) with (skip_ws z).
    rewrite skip_ws_value by apply enc_start.
    rewrite (Hkv inner _ fuel (ok_rest_newline outer _) Hfx).
    rewrite skip_ws_newline_indent. reflexivity.
  - set (sep := lit "," ++ newline_indent inner).
    assert (Hsep : forall z, sep ++ z = 44 :: newline_indent inner ++ z) by reflexivity.
    change (join sep (List.map (member inner) (kv :: kv' :: d)))
      with (member inner kv ++ sep ++ join sep (List.map (member inner) (kv' :: d))).
    rewrite <- !app_assoc, member_unfold, Hsep.
    eexists. split; [reflexivity|].
    cbn [object_loop]. rewrite scanstring_escaped.
    rewrite skip_ws_start by reflexivity.
    change (58 =? 58) with true. cbv iota.
    change (skip_ws (32 :: ?z)) with (skip_ws z).
    rewrite skip_ws_value by apply enc_start.
    rewrite (Hkv inner _ fuel (ok_rest_comma _) Hfx).
    rewrite skip_ws_start by reflexivity.
    change (44 =? 125) with false. change (44 =? 44) with true. cbv iota.
    rewrite skip_ws_newline_indent.
    destruct (IH ltac:(discriminate) inner outer rest fuel Hfl) as (t & Ht & Hloop).
    fold sep in Ht. rewrite Ht.
    rewrite skip_ws_start by reflexivity.
    change (34 =? 34) with true. cbv iota.
    rewrite Hloop. reflexivity.
Qed.

Lemma array_dispatch (s : str) (fuel : nat) :
  value_start s ->
  match s with
  | [] => None
  | d :: r1 =>
      if d =? 93 then Some (JArr [], r1)
      else
        match array_loop fuel (d :: r1) with
        | Some (values, rest) => Some (JArr values, rest)
        | None => None
        end
  end
  = match array_loop fuel s with
    | Some (values, rest) => Some (JArr values, rest)
    | None => None
    end.
Proof. intros (c & t & -> & _ & Hc). rewrite Hc. reflexivity. Qed.

Lemma object_dispatch (s t : str) (fuel : nat) :
  s = 34 :: t ->
  match skip_ws s with
  | [] => None
  | d :: r1 =>
      if d =? 125 then Some (JObj [], r1)
      else if d =? 34 then
        match object_loop fuel r1 with
        | Some (pairs, rest) => Some (JObj pairs, rest)
        | None => None
        end
      else None
  end
  = match object_loop fuel t with
    | Some (pairs, rest) => Some (JObj pairs, rest)
    | None => None
    end.
Proof. intros ->. reflexivity. Qed.

Lemma scan_once_enc (v : pyval) : scans_back v.
Proof.
  induction v as [s|f|l IH|d IH] using pyval_ind';
    intros level rest fuel Hrest Hfuel; (destruct fuel as [|fuel]; [simpl in Hfuel; lia|]).
  - change (enc (PStr s) level) with (encoder false s). rewrite encoder_unfold.
    cbn [app scan_once]. change (34 =? 34) with true. cbv iota.
    rewrite <- app_assoc. cbn [app]. rewrite scanstring_escaped. reflexivity.
  - apply scan_once_floatstr. exact Hrest.
  - destruct l as [|x l]; [reflexivity|].
    change (enc (PList (x :: l)) level)
      with (91 :: newline_indent (S level)
               ++ join (lit "," ++ newline_indent (S level))
                       (List.map (fun v => enc v (S level)) (x :: l))
               ++ newline_indent level ++ [93]).
    cbn [app scan_once]. change (91 =? 34) with false. change (91 =? 123) with false.
    change (91 =? 91) with true. cbv iota.
    rewrite <- !app_assoc. cbn [app].
    rewrite skip_ws_newline_indent.
    rewrite skip_ws_value by (apply (join_start _ (enc x (S level))), enc_start).
    etransitivity;
      [apply (array_dispatch _ fuel), value_start_app,
             (join_start _ (enc x (S level))), enc_start|].
    rewrite (array_loop_join (x :: l) IH ltac:(discriminate))
      by (simpl in Hfuel |- *; lia).
    reflexivity.
  - destruct d as [|kv d]; [reflexivity|].
    change (enc (PDict (kv :: d)) level)
      with (123 :: newline_indent (S level)
                ++ join (lit "," ++ newline_indent (S level))
                        (List.map (member (S level)) (kv :: d))
                ++ newline_indent level ++ [125]).
    cbn [app scan_once]. change (123 =? 34) with false. change (123 =? 123) with true.
    cbv iota. rewrite <- !app_assoc. cbn [app].
    rewrite skip_ws_newline_indent.
    destruct (object_loop_join (kv :: d) IH ltac:(discriminate) (S level) level rest fuel)
      as (t & Ht & Hloop); [simpl in Hfuel |- *; lia|].
    etransitivity; [apply (object_dispatch _ t fuel), Ht|].
    rewrite Hloop. reflexivity.
Qed.

Lemma length_join_sum (sep : str) (xs : list str) :
  xs <> [] -> (1 <= length sep)%nat ->
  (list_sum (List.map (fun x => S (length x)) xs) <= S (length (join sep xs)))%nat.
Proof.
  intros Hne Hsep. induction xs as [|x xs IH]; [contradiction|].
  destruct xs as [|y xs].
  - simpl. lia.
  - change (join sep (x :: y :: xs)) with (x ++ sep ++ join sep (y :: xs)).
    rewrite !length_app. specialize (IH ltac:(discriminate)).
    change (list_sum (List.map (fun x => S (length x)) (x :: y :: xs)))
      with (S (length x) + list_sum (List.map (fun x => S (length x)) (y :: xs)))%nat.
    lia.
Qed.

Lemma list_sum_le {A} (f g : A -> nat) (l : list A) :
  Forall (fun x => (f x <= g x)%nat) l ->
  (list_sum (List.map f l) <= list_sum (List.map g l))%nat.
Proof. induction 1; simpl; lia. Qed.

Lemma floatstr_nonempty (f : float) : (1 <= length (floatstr float_repr f))%nat.
Proof.
  destruct (floatstr_start f) as (c & t & -> & _). simpl. lia.
Qed.

Lemma size_le_length (v : pyval) (level : nat) : (size v <= length (enc v level))%nat.
Proof.
  revert level. induction v as [s|f|l IH|d IH] using pyval_ind'; intros level.
  - change (enc (PStr s) level) with (encoder false s). rewrite encoder_unfold.
    simpl. lia.
  - apply floatstr_nonempty.
  - destruct l as [|x l]; [simpl; lia|].
    change (enc (PList (x :: l)) level)
      with (91 :: newline_indent (S level)
               ++ join (lit "," ++ newline_indent (S level))
                       (List.map (fun v => enc v (S level)) (x :: l))
               ++ newline_indent level ++ [93]).
    cbn [length]. rewrite !length_app.
    pose proof (length_join_sum (lit "," ++ newline_indent (S level))
                  (List.map (fun v => enc v (S level)) (x :: l))
                  ltac:(discriminate) ltac:(simpl; lia)) as Hj.
    rewrite List.map_map in Hj.
    pose proof (list_sum_le (fun v => S (size v)) (fun v => S (length (enc v (S level))))
                  (x :: l)) as Hs.
    assert (Hall : Forall (fun v => (S (size v) <= S (length (enc v (S level))))%nat) (x :: l)).
    { eapply Forall_impl; [exact IH|]. intros v Hv. cbv beta in *.
      specialize (Hv (S level)). lia. }
    specialize (Hs Hall).
    change (size (PList (x :: l)))
      with (S (list_sum (List.map (fun v => S (size v)) (x :: l)))).
    unfold newline_indent at 1 3. cbn [length].
    lia.
  - destruct d as [|kv d]; [simpl; lia|].
    change (enc (PDict (kv :: d)) level)
      with (123 :: newline_indent (S level)
                ++ join (lit "," ++ newline_indent (S level))
                        (List.map (member (S level)) (kv :: d))
                ++ newline_indent level ++ [125]).
    cbn [length]. rewrite !length_app.
    pose proof (length_join_sum (lit "," ++ newline_indent (S level))
                  (List.map (member (S level)) (kv :: d))
                  ltac:(discriminate) ltac:(simpl; lia)) as Hj.
    rewrite List.map_map in Hj.
    pose proof (list_sum_le (fun kv => S (size (snd kv)))
                  (fun kv => S (length (member (S level) kv))) (kv :: d)) as Hs.
    assert (Hall : Forall (fun kv => (S (size (snd kv)) <= S (length (member (S level) kv)))%nat)
                          (kv :: d)).
    { eapply Forall_impl; [exact IH|]. intros kv0 Hv. cbv beta in *.
      specialize (Hv (S level)). unfold member. rewrite !length_app. lia. }
    specialize (Hs Hall).
    change (size (PDict (kv :: d)))
      with (S (list_sum (List.map (fun kv => S (size (snd kv))) (kv :: d)))).
    unfold newline_indent at 1 3. cbn [length].
    lia.
Qed.

(** Reading what [json.dumps] wrote gives the syntax tree of the value. *)
Lemma json_loads_dumps (v : pyval) :
  json_loads (json_dumps float_repr false v) = Some (tree v).
Proof.
  unfold json_loads, json_dumps.
  rewrite <- (app_nil_r (enc v 0)) at 2.
  rewrite skip_ws_value by apply enc_start.
  rewrite scan_once_enc.
  - reflexivity.
  - left. reflexivity.
  - pose proof (size_le_length v 0). lia.
Qed.
End RoundTrip.


Lemma sample_repr_ok : repr_ok Sample.repr.
Proof.
  intros f _ _ _. unfold Sample.repr.
  destruct (f =? 0.6)%float; [reflexivity|].
  destruct (f =? 0.5)%float; [reflexivity|].
  destruct (f =? 0.05)%float; reflexivity.
Qed.


(** When [--output] is the stamped name of the report, the report is written
    over the JSON text: the side condition on the names above is needed. *)
Remark report_can_overwrite_json :
  fst (main Sample.env Sample.cmdline_clash Sample.world) = Ok tt
  /\ exists h,
       w_fs (snd (main Sample.env Sample.cmdline_clash Sample.world))
         !! json_name Sample.env (parse_args Sample.cmdline_clash) = Some h
       /\ json_loads h = None.
Proof.
  split; [vm_compute; reflexivity|].
  eexists. split.
  - vm_compute. reflexivity.
  - vm_compute. reflexivity.
Qed.

(** * Further properties *)

(** ** Reading the input *)

Lemma truthy_strip (s : str) : truthy (strip s) = negb (all_space s).
Proof.
  destruct (all_space s) eqn:Hs.
  - rewrite (strip_all_space s Hs). reflexivity.
  - destruct (strip s) as [|c r] eqn:Hstrip; [|reflexivity].
    apply strip_nil_all_space in Hstrip. congruence.
Qed.

Lemma input_loop_until_blank (pre post : list str) (blank : str) (acc : list str) :
  Forall nonblank pre -> all_space blank = true ->
  input_loop (pre ++ blank :: post) acc = (Ok (acc ++ pre), post).
Proof.
  intros Hpre Hblank. revert acc.
  induction Hpre as [|line pre Hline Hpre IH]; intros acc; cbn [app input_loop].
  - rewrite truthy_strip, Hblank. rewrite app_nil_r. reflexivity.
  - unfold nonblank in Hline. rewrite truthy_strip, Hline. cbn [negb].
    rewrite IH, <- app_assoc. reflexivity.
Qed.

Lemma input_loop_eof (stdin : list str) (acc : list str) :
  Forall nonblank stdin -> input_loop stdin acc = (Raise EOFError, []).
Proof.
  intros H. revert acc. induction H as [|line stdin Hline _ IH]; intros acc; cbn [input_loop].
  - reflexivity.
  - unfold nonblank in Hline. rewrite truthy_strip, Hline. apply IH.
Qed.

Lemma main_read_fails (E : Env) (cl : CmdLine) (w w1 : World) (e : exn) :
  read_input (parse_args cl) w = (Raise e, w1) -> main E cl w = (Raise e, w1).
Proof. intros H. unfold main. unfold bind at 1. rewrite H. reflexivity. Qed.

Lemma main_load_fails (E : Env) (cl : CmdLine) (w w1 w2 : World) (text : str) (e : exn) :
  read_input (parse_args cl) w = (Ok text, w1) ->
  load_model E (after_print (lit " Loading spaCy model...") w1) = (Raise e, w2) ->
  main E cl w = (Raise e, w2).
Proof.
  intros Hread Hload. unfold main. unfold bind at 1. rewrite Hread.
  unfold bind at 1. cbn [print]. fold (after_print (lit " Loading spaCy model...") w1).
  unfold bind at 1. rewrite Hload. reflexivity.
Qed.

(** X1: without an input file the text is made of the console lines before
    the first line that is empty or only whitespace, joined by newlines and
    otherwise untouched; that line is consumed, the lines after it are left
    unread, and no file is touched. *)
Theorem console_input_until_blank
    (cl : CmdLine) (w : World) (pre post : list str) (blank : str) :
  cl_input cl = None \/ cl_input cl = Some [] ->
  w_stdin w = pre ++ blank :: post ->
  Forall nonblank pre -> all_space blank = true ->
  read_input (parse_args cl) w
  = (Ok (join nl pre),
     mkWorld (w_fs w) post
             (w_stdout w ++ [lit "Paste your text (end with an empty line):"])
             (w_calls w)).
Proof.
  intros Hin Hstdin Hpre Hblank.
  assert (Hgo : bind (print (lit "Paste your text (end with an empty line):"))
                     (fun _ => bind read_lines (fun lines => ret (join nl lines))) w
                = (Ok (join nl pre),
                   mkWorld (w_fs w) post
                     (w_stdout w ++ [lit "Paste your text (end with an empty line):"])
                     (w_calls w))).
  { unfold bind, print, read_lines, ret. cbn [w_fs w_stdin w_stdout w_calls].
    rewrite Hstdin, (input_loop_until_blank pre post blank [] Hpre Hblank). reflexivity. }
  unfold read_input, parse_args. cbn [input].
  destruct Hin as [-> | ->]; exact Hgo.
Qed.

Lemma console_input_until_blank_witness :
  read_input (parse_args Sample.cmdline) Sample.world_console
  = (Ok (lit "first line" ++ nl ++ lit " second "),
     mkWorld ∅ [lit "unread"] [lit "Paste your text (end with an empty line):"] []).
Proof.
  apply (console_input_until_blank Sample.cmdline Sample.world_console
           [lit "first line"; lit " second "] [lit "unread"] (lit "   ")).
  - left. reflexivity.
  - reflexivity.
  - repeat constructor.
  - reflexivity.
Defined.

(** X2: when the console ends before any blank line, the run fails with
    [EOFError]: the model is not loaded and no file is written. *)
Theorem console_input_eof (E : Env) (cl : CmdLine) (w : World) :
  cl_input cl = None \/ cl_input cl = Some [] ->
  Forall nonblank (w_stdin w) ->
  main E cl w
  = (Raise EOFError,
     mkWorld (w_fs w) []
             (w_stdout w ++ [lit "Paste your text (end with an empty line):"])
             (w_calls w)).
Proof.
  intros Hin Hstdin. apply main_read_fails.
  assert (Hgo : bind (print (lit "Paste your text (end with an empty line):"))
                     (fun _ => bind read_lines (fun lines => ret (join nl lines))) w
                = (Raise EOFError,
                   mkWorld (w_fs w) []
                     (w_stdout w ++ [lit "Paste your text (end with an empty line):"])
                     (w_calls w))).
  { unfold bind, print, read_lines, ret. cbn [w_fs w_stdin w_stdout w_calls].
    rewrite (input_loop_eof _ [] Hstdin). reflexivity. }
  unfold read_input, parse_args. cbn [input].
  destruct Hin as [-> | ->]; exact Hgo.
Qed.

Lemma console_input_eof_witness :
  main Sample.env Sample.cmdline Sample.world_eof
  = (Raise EOFError,
     mkWorld ∅ [] [lit "Paste your text (end with an empty line):"] []).
Proof.
  apply (console_input_eof Sample.env Sample.cmdline Sample.world_eof).
  - left. reflexivity.
  - repeat constructor.
Defined.

(** X3: when the input file does not exist the run fails with
    [FileNotFoundError] before anything else happens: nothing is printed, the
    model is not loaded, no file is written. *)
Theorem missing_input_file (E : Env) (cl : CmdLine) (w : World) (p : str) :
  cl_input cl = Some p -> p <> [] -> w_fs w !! p = None ->
  main E cl w = (Raise FileNotFoundError, w).
Proof.
  intros Hp Hne Hnone. apply main_read_fails.
  unfold read_input, parse_args. cbn [input]. rewrite Hp.
  destruct p as [|c p]; [contradiction|]. cbn [truthy].
  unfold read_text. rewrite Hnone. reflexivity.
Qed.

Lemma missing_input_file_witness :
  main Sample.env Sample.cmdline_missing Sample.world
  = (Raise FileNotFoundError, Sample.world).
Proof.
  apply (missing_input_file Sample.env Sample.cmdline_missing Sample.world
           (lit "absent.txt")).
  - reflexivity.
  - discriminate.
  - vm_compute. reflexivity.
Defined.

(** ** Loading the model: the other paths *)

Lemma load_count_after_print (line : str) (w : World) :
  load_count (after_print line w) = load_count w.
Proof. reflexivity. Qed.

(** X4: an exception of the first [spacy.load] that is not an [OSError] is
    not handled: nothing is downloaded, the load is not tried again, the run
    fails with that exception and writes no file. *)
Theorem other_load_error_not_retried
    (E : Env) (cl : CmdLine) (w w1 : World) (text : str) (e : exn) :
  read_input (parse_args cl) w = (Ok text, w1) ->
  e_spacy_load E (load_count w) = Raise e -> is_OSError e = false ->
  exists w',
    main E cl w = (Raise e, w')
    /\ w_calls w' = w_calls w ++ [EvLoad]
    /\ w_fs w' = w_fs w
    /\ w_stdout w' = w_stdout w1 ++ [lit " Loading spaCy model..."].
Proof.
  intros Hread Hload Hos.
  destruct (read_input_frame _ _ _ _ Hread) as [Hfs Hcalls].
  assert (Hcount : load_count w1 = load_count w)
    by (unfold load_count; rewrite Hcalls; reflexivity).
  eexists. split.
  - apply (main_load_fails E cl w w1 _ text e Hread).
    unfold load_model, try_except, spacy_load.
    rewrite load_count_after_print, Hcount, Hload, Hos. reflexivity.
  - cbn [w_calls w_fs w_stdout after_print]. rewrite Hfs, Hcalls. auto.
Qed.

Lemma other_load_error_not_retried_witness :
  exists w',
    main Sample.broken_env Sample.cmdline_json Sample.world = (Raise RuntimeError, w')
    /\ w_calls w' = [EvLoad].
Proof.
  destruct (other_load_error_not_retried Sample.broken_env Sample.cmdline_json
              Sample.world Sample.world Sample.text RuntimeError)
    as (w' & Hrun & Hcalls & _); try reflexivity.
  exists w'. split; [exact Hrun|exact Hcalls].
Defined.

(** X5: when the model is missing and the download itself fails, the run
    fails with the exception of the download; the load is not tried again
    and no file is written. *)
Theorem download_failure_is_fatal
    (E : Env) (cl : CmdLine) (w w1 : World) (text : str) (e e' : exn) :
  read_input (parse_args cl) w = (Ok text, w1) ->
  e_spacy_load E (load_count w) = Raise e -> is_OSError e = true ->
  e_download E = Raise e' ->
  exists w',
    main E cl w = (Raise e', w')
    /\ w_calls w' = w_calls w ++ [EvLoad; EvDownload]
    /\ w_fs w' = w_fs w.
Proof.
  intros Hread Hload Hos Hdl.
  destruct (read_input_frame _ _ _ _ Hread) as [Hfs Hcalls].
  assert (Hcount : load_count w1 = load_count w)
    by (unfold load_count; rewrite Hcalls; reflexivity).
  eexists. split.
  - apply (main_load_fails E cl w w1 _ text e' Hread).
    rewrite (load_model_missing E _ e)
      by (try rewrite load_count_after_print, Hcount; assumption).
    rewrite Hdl. reflexivity.
  - cbn [w_calls w_fs after_print]. rewrite Hfs, Hcalls. auto.
Qed.

Lemma download_failure_is_fatal_witness :
  exists w',
    main Sample.offline_env Sample.cmdline_json Sample.world = (Raise SystemExit, w')
    /\ w_calls w' = [EvLoad; EvDownload].
Proof.
  destruct (download_failure_is_fatal Sample.offline_env Sample.cmdline_json
              Sample.world Sample.world Sample.text OSError SystemExit)
    as (w' & Hrun & Hcalls & _); try reflexivity.
  exists w'. split; [exact Hrun|exact Hcalls].
Defined.

(** X6: when the first [spacy.load] returns, the run makes no other call to
    the loader and none to the download, however it ends. *)
Theorem installed_model_single_load
    (E : Env) (cl : CmdLine) (w w1 w' : World) (text : str) (nlp : NLP)
    (r : result unit) :
  read_input (parse_args cl) w = (Ok text, w1) ->
  e_spacy_load E (load_count w) = Ok nlp ->
  main E cl w = (r, w') ->
  w_calls w' = w_calls w ++ [EvLoad].
Proof.
  intros Hread Hload Hrun.
  destruct (read_input_frame _ _ _ _ Hread) as [_ Hcalls].
  assert (Hcount : load_count w1 = load_count w)
    by (unfold load_count; rewrite Hcalls; reflexivity).
  destruct (main_calls _ _ _ _ _ _ _ Hread Hrun) as (rl & w2 & Hlm & Hc & _).
  unfold load_model, try_except, spacy_load in Hlm.
  rewrite load_count_after_print, Hcount, Hload in Hlm.
  injection Hlm as <- <-. rewrite Hc. cbn [w_calls after_print]. rewrite Hcalls. reflexivity.
Qed.

Lemma installed_model_single_load_witness :
  w_calls (snd (main Sample.env Sample.cmdline_json Sample.world)) = [EvLoad].
Proof.
  apply (installed_model_single_load Sample.env Sample.cmdline_json Sample.world
           Sample.world _ Sample.text Sample.nlp
           (fst (main Sample.env Sample.cmdline_json Sample.world)));
    vm_compute; reflexivity.
Defined.

(** ** The wrappers: what else they do *)

(** X7: when the scorer's mapping has no [compound] entry,
    [classify_sentiment] raises [KeyError]. *)
Theorem classify_sentiment_missing_compound
    (text : str) (analyzer : Analyzer) (scores : list (str * float)) :
  analyzer text = Ok scores ->
  ~ In (lit "compound") (keys scores) ->
  classify_sentiment text analyzer = Raise KeyError.
Proof.
  intros Ha Hnot. unfold classify_sentiment, getitem. rewrite Ha. cbn [rbind].
  assert (Hget : dict_get (lit "compound") scores = None).
  { clear Ha. induction scores as [|[k v] r IH]; [reflexivity|].
    cbn [dict_get]. destruct (decide (lit "compound" = k)) as [Heq|_].
    - exfalso. apply Hnot. left. symmetry. exact Heq.
    - apply IH. intros Hin. apply Hnot. right. exact Hin. }
  rewrite Hget. reflexivity.
Qed.

Lemma classify_sentiment_missing_compound_witness :
  classify_sentiment Sample.text (fun _ => Ok Sample.partial_scores) = Raise KeyError.
Proof.
  apply (classify_sentiment_missing_compound Sample.text
           (fun _ => Ok Sample.partial_scores) Sample.partial_scores eq_refl).
  cbn. intros [H|[H|[H|[]]]]; discriminate H.
Defined.

(** X8: whatever [classify_sentiment] returns is a dict with the two keys
    [label] and [scores], in this order: the label is one of the three
    words, and the scores are the scorer's mapping, entry by entry, in its
    order. *)
Theorem classify_sentiment_shape (text : str) (analyzer : Analyzer) (out : pyval) :
  classify_sentiment text analyzer = Ok out ->
  exists label scores,
    analyzer text = Ok scores
    /\ out = PDict [(lit "label", PStr label); (lit "scores", scores_dict scores)]
    /\ (label = lit "positive" \/ label = lit "negative" \/ label = lit "neutral")
    /\ (exists d, scores_dict scores = PDict d
                  /\ keys d = keys scores
                  /\ forall k f, dict_get k scores = Some f
                                 -> dict_get k d = Some (PFloat f)).
Proof.
  unfold classify_sentiment, getitem.
  destruct (analyzer text) as [scores|e]; cbn [rbind]; [|discriminate].
  destruct (dict_get (lit "compound") scores) as [c|]; cbn [rbind]; [|discriminate].
  intros [= <-]. eexists _, scores. split; [reflexivity|]. split; [reflexivity|]. split.
  - destruct (0.05 <=? c)%float; [auto|]. destruct (c <=? - 0.05)%float; auto.
  - eexists. split; [reflexivity|]. split.
    + unfold keys. rewrite List.map_map. reflexivity.
    + intros k f. induction scores as [|[k' v] r IH]; cbn [dict_get List.map fst snd];
        [discriminate|].
      destruct (decide (k = k')); [intros [= ->]; reflexivity|exact IH].
Qed.

Lemma classify_sentiment_shape_witness :
  exists label scores,
    Sample.analyzer Sample.text = Ok scores
    /\ (label = lit "positive" \/ label = lit "negative" \/ label = lit "neutral").
Proof.
  destruct (classify_sentiment_shape Sample.text Sample.analyzer
              (PDict [(lit "label", PStr (lit "positive"));
                      (lit "scores", scores_dict Sample.scores)]) eq_refl)
    as (label & scores & Ha & _ & Hlabel & _).
  exists label, scores. split; [exact Ha|exact Hlabel].
Defined.

(** X9: a summary with a character that is not whitespace is returned as
    joined, not trimmed: the sentences in order, one space between two, and
    the whitespace at the two ends kept. *)
Theorem summarize_text_not_trimmed
    (summarizer : Summarizer) (text : str) (n : Z) (ss : list str) :
  summarizer text n = Ok ss ->
  all_space (join (lit " ") ss) = false ->
  summarize_text summarizer text n = Ok (join (lit " ") ss).
Proof.
  intros Hs Hns. unfold summarize_text. rewrite Hs. cbn [rbind].
  rewrite truthy_strip, Hns. reflexivity.
Qed.

Lemma summarize_text_not_trimmed_witness :
  summarize_text Sample.summarizer Sample.text 3 = Ok Sample.text.
Proof.
  apply (summarize_text_not_trimmed Sample.summarizer Sample.text 3 [Sample.text]);
    reflexivity.
Defined.

(** ** The two writers *)

(** X10: once [save_json] has returned, the file under the given path reads
    back as the object that was saved: strings as they were, lists and dicts
    with their elements in order; no other file and nothing of the console
    has changed. *)
Theorem save_json_reads_back (E : Env) (obj : pyval) (p : str) (w w' : World) :
  repr_ok (e_float_repr E) ->
  save_json E obj p w = (Ok tt, w') ->
  (exists t, w_fs w' !! p = Some t
             /\ json_loads t = Some (tree_of (e_float_repr E) obj))
  /\ (forall q, q <> p -> w_fs w' !! q = w_fs w !! q)
  /\ w_stdin w' = w_stdin w /\ w_stdout w' = w_stdout w /\ w_calls w' = w_calls w.
Proof.
  intros Hrepr. unfold save_json, write_text.
  destruct p as [|c p]; [discriminate|].
  destruct (e_open_w E (c :: p)); [discriminate|].
  intros [= <-]. cbn [w_fs w_stdin w_stdout w_calls].
  split; [|split; [|auto]].
  - eexists. split; [apply lookup_insert_eq|]. apply json_loads_dumps. exact Hrepr.
  - intros q Hq. apply lookup_insert_ne. congruence.
Qed.

Lemma save_json_reads_back_witness :
  exists t,
    w_fs (snd (save_json Sample.env (PList [PStr Sample.text; PFloat 0.5]) (lit "a.json")
                 Sample.world)) !! lit "a.json" = Some t
    /\ json_loads t = Some (JArr [JStr Sample.text; JNum (lit "0.5")]).
Proof.
  destruct (save_json_reads_back Sample.env (PList [PStr Sample.text; PFloat 0.5])
              (lit "a.json") Sample.world
              (snd (save_json Sample.env (PList [PStr Sample.text; PFloat 0.5])
                      (lit "a.json") Sample.world)))
    as ((t & Ht & Hload) & _).
  - exact sample_repr_ok.
  - vm_compute. reflexivity.
  - exists t. split; [exact Ht|exact Hload].
Defined.





Lemma render_rows_exact (E : Env) (ents : list Ent) :
  rmap (render_row E) (List.map entity_dict ents) = Ok (List.map html_row ents).
Proof.
  induction ents as [|e r IH]; [reflexivity|].
  cbn [List.map rmap]. rewrite IH. reflexivity.
Qed.

Lemma infix_of_skip (x s t : str) : infix_of x t -> infix_of x (s ++ t).
Proof.
  intros (a & b & ->). exists (s ++ a), b. rewrite <- app_assoc. reflexivity.
Qed.

Lemma infix_of_here (a b c rest : str) : infix_of (a ++ b ++ c) (a ++ b ++ c ++ rest).
Proof. exists [], rest. cbn [app]. rewrite <- !app_assoc. reflexivity. Qed.

Lemma infix_of_last (a b c : str) : infix_of (a ++ b ++ c) (a ++ b ++ c).
Proof. exists [], []. rewrite app_nil_r. reflexivity. Qed.

Lemma infix_of_concat (x : str) (xs : list str) (rest : str) :
  In x xs -> infix_of x (concat xs ++ rest).
Proof.
  intros Hin. apply in_split in Hin. destruct Hin as (l1 & l2 & ->).
  exists (concat l1), (concat l2 ++ rest).
  rewrite concat_app. cbn [concat]. rewrite <- !app_assoc. reflexivity.
Qed.

Lemma subscript_results (summary : str) (entities : list pyval) (sentiment : pyval)
    (text : str) :
  subscript (results summary entities sentiment text) (lit "summary") = Ok (PStr summary)
  /\ subscript (results summary entities sentiment text) (lit "entities")
     = Ok (PList entities)
  /\ subscript (results summary entities sentiment text) (lit "sentiment") = Ok sentiment
  /\ subscript (results summary entities sentiment text) (lit "original_text")
     = Ok (PStr (strip text)).
Proof. repeat split; reflexivity. Qed.

(** X13: the report takes the texts as they are, with no HTML escaping: the
    summary, each entity's text and label, the sentiment label and the
    original text stand in the page character for character, whatever they
    contain. *)
Theorem html_report_not_escaped
    (E : Env) (summary label text : str) (ents : list Ent) (scores : pyval) :
  exists h,
    render_html E (results summary (List.map entity_dict ents)
                     (PDict [(lit "label", PStr label); (lit "scores", scores)]) text)
    = Ok h
    /\ infix_of (lit "><h2>Summary</h2><p>" ++ summary ++ lit "</p></div>") h
    /\ (forall e, In e ents -> infix_of (html_row e) h)
    /\ infix_of (lit "<p><strong>Label:</strong> " ++ label ++ lit "</p>") h
    /\ infix_of (lit "><h2>Original Text</h2><pre>" ++ strip text ++ lit "</pre></div>") h.
Proof.
  destruct (subscript_results summary (List.map entity_dict ents)
              (PDict [(lit "label", PStr label); (lit "scores", scores)]) text)
    as (Hs & He & Hse & Ho).
  eexists. split.
  - unfold render_html. rewrite Hs, He, Hse, Ho. cbn [rbind iter].
    rewrite render_rows_exact. cbn [rbind].
    change (subscript (PDict [(lit "label", PStr label); (lit "scores", scores)])
              (lit "label")) with (Ok (PStr label)).
    change (subscript (PDict [(lit "label", PStr label); (lit "scores", scores)])
              (lit "scores")) with (Ok scores).
    cbn [rbind fmt]. reflexivity.
  - split; [|split; [|split]].
    + repeat first [apply infix_of_here | apply infix_of_skip].
    + intros e Hin.
      repeat first [apply infix_of_concat, in_map, Hin | apply infix_of_skip].
    + repeat first [apply infix_of_here | apply infix_of_skip].
    + repeat first [apply infix_of_here | apply infix_of_skip].
Qed.

(** ** The JSON text *)

Lemma escape_char_plain (c : char) : plain_char c = true -> escape_char c = [c].
Proof.
  unfold plain_char. intros H.
  apply andb_true_iff in H. destruct H as [H H92].
  apply andb_true_iff in H. destruct H as [H32 H34].
  apply negb_true_iff in H92, H34. apply N.leb_le in H32.
  unfold escape_char, escape_dct. rewrite H92, H34.
  assert (Hne : forall k, k < 32 -> (c =? k) = false)
    by (intros k Hk; apply N.eqb_neq; lia).
  rewrite !Hne by lia.
  assert (Hlt : (c <? 32) = false) by (apply N.ltb_ge; lia).
  rewrite Hlt. reflexivity.
Qed.

(** X14: with [ensure_ascii=False] a string with no control character, no
    double quote and no backslash is written between two quotes as it is,
    whatever other characters (accented letters, emoji) it holds. *)
Theorem json_string_kept_literally (float_repr : float -> str) (s : str) :
  forallb plain_char s = true ->
  json_dumps float_repr false (PStr s) = [34] ++ s ++ [34].
Proof.
  intros Hs. unfold json_dumps. cbn [iterencode]. unfold encoder. do 2 f_equal.
  induction s as [|c s IH]; [reflexivity|].
  cbn [forallb] in Hs. apply andb_true_iff in Hs. destruct Hs as [Hc Hs].
  cbn [List.map concat]. rewrite (escape_char_plain c Hc), (IH Hs). reflexivity.
Qed.

Lemma json_string_kept_literally_witness :
  json_dumps Sample.repr false (PStr [233; 116; 233; 32; 128512])
  = [34; 233; 116; 233; 32; 128512; 34].
Proof.
  apply (json_string_kept_literally Sample.repr [233; 116; 233; 32; 128512]).
  reflexivity.
Defined.











(** ** Output names and the whole run *)

Lemma two_digits (n m : N) :
  n < 100 -> m < 100 ->
  n / 10 mod 10 = m / 10 mod 10 -> n mod 10 = m mod 10 -> n = m.
Proof.
  intros Hn Hm H1 H2. zify. Z.to_euclidean_division_equations. lia.
Qed.

Lemma low_digits (n m : N) :
  n / 100 = m / 100 ->
  n / 10 mod 10 = m / 10 mod 10 -> n mod 10 = m mod 10 -> n = m.
Proof.
  intros H0 H1 H2. zify. Z.to_euclidean_division_equations. lia.
Qed.

Lemma zpad2_inj (n m : N) : n < 100 -> m < 100 -> zpad2 n = zpad2 m -> n = m.
Proof.
  intros Hn Hm. unfold zpad2. intros [= H1 H2].
  apply N.add_cancel_l in H1, H2. apply two_digits; assumption.
Qed.

Lemma zpad4_inj (n m : N) : n < 10000 -> m < 10000 -> zpad4 n = zpad4 m -> n = m.
Proof.
  intros Hn Hm. unfold zpad4. intros [= H0 H1 H2 H3].
  apply N.add_cancel_l in H0, H1, H2, H3.
  apply low_digits; [|assumption|assumption].
  apply two_digits.
  - apply N.Div0.div_lt_upper_bound. exact Hn.
  - apply N.Div0.div_lt_upper_bound. exact Hm.
  - rewrite !N.Div0.div_div. exact H0.
  - exact H1.
Qed.

Lemma strftime_inj (d1 d2 : datetime) :
  valid_datetime d1 -> valid_datetime d2 -> strftime d1 = strftime d2 -> d1 = d2.
Proof.
  intros (Hy1 & Hmo1 & Hd1 & Hh1 & Hmi1 & Hs1) (Hy2 & Hmo2 & Hd2 & Hh2 & Hmi2 & Hs2).
  destruct d1 as [y1 mo1 d1 h1 mi1 s1], d2 as [y2 mo2 d2 h2 mi2 s2].
  cbn [year month day hour minute second] in *.
  unfold strftime. cbn [year month day hour minute second].
  intros H.
  assert (H4 : zpad4 y1 = zpad4 y2 /\ zpad2 mo1 = zpad2 mo2 /\ zpad2 d1 = zpad2 d2
               /\ zpad2 h1 = zpad2 h2 /\ zpad2 mi1 = zpad2 mi2 /\ zpad2 s1 = zpad2 s2).
  { unfold zpad4, zpad2 in *. cbn [app lit list_ascii_of_string List.map] in H.
    injection H as E1 E2 E3 E4 E5 E6 E7 E8 E9 E10 E11 E12 E13 E14.
    repeat split; congruence. }
  destruct H4 as (Hy & Hmo & Hd & Hh & Hmi & Hs).
  rewrite (zpad4_inj _ _ Hy1 Hy2 Hy), (zpad2_inj _ _ Hmo1 Hmo2 Hmo),
    (zpad2_inj _ _ Hd1 Hd2 Hd), (zpad2_inj _ _ Hh1 Hh2 Hh),
    (zpad2_inj _ _ Hmi1 Hmi2 Hmi), (zpad2_inj _ _ Hs1 Hs2 Hs).
  reflexivity.
Qed.

(** X16: the stamp tells the second: two runs whose clocks differ get
    different report names and different default JSON names, so they do not
    write over each other's files. *)
Theorem stamped_names_differ (E1 E2 : Env) :
  valid_datetime (e_now E1) -> valid_datetime (e_now E2) ->
  e_now E1 <> e_now E2 ->
  html_name E1 <> html_name E2
  /\ forall cl1 cl2,
       (cl_output cl1 = None \/ cl_output cl1 = Some []) ->
       (cl_output cl2 = None \/ cl_output cl2 = Some []) ->
       json_name E1 (parse_args cl1) <> json_name E2 (parse_args cl2).
Proof.
  intros Hv1 Hv2 Hne.
  assert (Hstamp : timestamp E1 <> timestamp E2).
  { unfold timestamp. intros H. apply Hne. apply strftime_inj; assumption. }
  split.
  - unfold html_name. intros H. apply Hstamp.
    apply app_inv_head in H. apply app_inv_tail in H. exact H.
  - intros cl1 cl2 H1 H2.
    assert (Hj : forall E cl, cl_output cl = None \/ cl_output cl = Some [] ->
                 json_name E (parse_args cl) = lit "results_" ++ timestamp E ++ lit ".json").
    { intros E cl [H|H]; unfold json_name, parse_args; cbn [output]; rewrite H; reflexivity. }
    rewrite (Hj E1 cl1 H1), (Hj E2 cl2 H2). intros H. apply Hstamp.
    apply app_inv_head in H. apply app_inv_tail in H. exact H.
Qed.

Lemma stamped_names_differ_witness :
  html_name Sample.env
  <> html_name {| e_now := {| year := 2024; month := 1; day := 2;
                             hour := 3; minute := 4; second := 6 |};
                  e_spacy_load := e_spacy_load Sample.env;
                  e_download := e_download Sample.env;
                  e_analyzer := e_analyzer Sample.env;
                  e_summarizer := e_summarizer Sample.env;
                  e_open_w := e_open_w Sample.env;
                  e_float_repr := e_float_repr Sample.env;
                  e_str := e_str Sample.env |}.
Proof.
  apply stamped_names_differ.
  - cbv. repeat split; reflexivity.
  - cbv. repeat split; reflexivity.
  - cbn. discriminate.
Defined.

Lemma default_names_differ (E : Env) (cl : CmdLine) :
  cl_output cl = None \/ cl_output cl = Some [] ->
  json_name E (parse_args cl) <> html_name E.
Proof.
  intros [H|H]; unfold json_name, html_name, parse_args; cbn [output]; rewrite H;
    cbn; discriminate.
Qed.

(** X17: with no [--output] (or an empty one) the two default names differ,
    so a run that ends well with the report on leaves both files, each with
    its own text, and no other file is touched. *)
Theorem default_run_leaves_both_files (E : Env) (cl : CmdLine) (w w' : World) :
  cl_output cl = None \/ cl_output cl = Some [] ->
  cl_no_html cl = false ->
  main E cl w = (Ok tt, w') ->
  exists res h,
    render_html E res = Ok h
    /\ w_fs w' !! json_name E (parse_args cl) = Some (json_text E res)
    /\ w_fs w' !! html_name E = Some h
    /\ forall q, q <> json_name E (parse_args cl) -> q <> html_name E ->
                 w_fs w' !! q = w_fs w !! q.
Proof.
  intros Hout Hflag Hrun. pose proof (default_names_differ E cl Hout) as Hne.
  destruct (main_run _ _ _ _ _ Hrun) as [(e & Hr & _)|Hright]; [discriminate Hr|].
  destruct Hright as (text & w1 & nlp & w2 & an & summary & entities & sentiment
                      & _ & _ & _ & _ & _ & _ & _ & Hcase).
  cbv zeta in Hcase. change (no_html (parse_args cl)) with (cl_no_html cl) in Hcase.
  rewrite Hflag in Hcase.
  destruct Hcase as [(Hno & _)|[(_ & _ & _ & h & Hh & Hfs)|(_ & _ & e & _ & Hr)]];
    [discriminate Hno| |discriminate Hr].
  exists (results summary entities sentiment text), h.
  split; [exact Hh|]. rewrite Hfs. split; [|split].
  - rewrite lookup_insert_ne by (intros Heq; apply Hne; symmetry; exact Heq).
    apply lookup_insert_eq.
  - apply lookup_insert_eq.
  - intros q Hq1 Hq2. rewrite !lookup_insert_ne by congruence. reflexivity.
Qed.

Lemma default_run_leaves_both_files_witness :
  exists res h,
    w_fs (snd (main Sample.env Sample.cmdline Sample.world))
      !! lit "results_20240102_030405.json" = Some (json_text Sample.env res)
    /\ w_fs (snd (main Sample.env Sample.cmdline Sample.world))
         !! lit "report_20240102_030405.html" = Some h.
Proof.
  destruct (default_run_leaves_both_files Sample.env Sample.cmdline Sample.world
              (snd (main Sample.env Sample.cmdline Sample.world)))
    as (res & h & _ & Hj & Hh & _).
  - left. reflexivity.
  - reflexivity.
  - vm_compute. reflexivity.
  - exists res, h. split; [exact Hj|exact Hh].
Defined.

Lemma json_name_cons (E : Env) (args : Args) : exists c r, json_name E args = c :: r.
Proof.
  unfold json_name. destruct (output args) as [|c r]; cbn; eauto.
Qed.



(** X19: the JSON text a run that ends well has written reads back as the
    summary, the entities in the order of the model, each with its text and
    label, the label and the scores of the sentiment, and the stripped
    text. *)
Theorem json_fields_read_back (E : Env) (cl : CmdLine) (w w' : World) :
  repr_ok (e_float_repr E) ->
  main E cl w = (Ok tt, w') ->
  exists text w1 nlp w2 ents analyzer scores summary label res,
    read_input (parse_args cl) w = (Ok text, w1)
    /\ load_model E (after_print (lit " Loading spaCy model...") w1) = (Ok nlp, w2)
    /\ nlp text = Ok ents
    /\ e_analyzer E = Ok analyzer /\ analyzer text = Ok scores
    /\ summarize_text (e_summarizer E) text (sentences (parse_args cl)) = Ok summary
    /\ (let fs1 := <[json_name E (parse_args cl) := json_text E res]> (w_fs w) in
        w_fs w' = fs1 \/ exists h, w_fs w' = <[html_name E := h]> fs1)
    /\ json_loads (json_text E res)
       = Some (JObj
           [(lit "summary", JStr summary);
            (lit "entities", JArr (List.map entity_tree ents));
            (lit "sentiment",
             JObj [(lit "label", JStr label);
                   (lit "scores",
                    JObj (List.map (fun kv => (fst kv,
                                               JNum (floatstr (e_float_repr E) (snd kv))))
                                   scores))]);
            (lit "original_text", JStr (strip text))]).
Proof.
  intros Hrepr Hrun.
  destruct (main_run _ _ _ _ _ Hrun) as [(e & Hr & _)|Hright]; [discriminate Hr|].
  destruct Hright as (text & w1 & nlp & w2 & an & summary & entities & sentiment
                      & Hread & Hload & Han & Hsum & Hent & Hcls & _ & Hcase).
  cbv zeta in Hcase.
  unfold extract_entities in Hent.
  destruct (nlp text) as [ents|] eqn:Hnlp; cbn [rbind] in Hent; [|discriminate Hent].
  injection Hent as <-.
  unfold classify_sentiment, getitem in Hcls.
  destruct (an text) as [scores|] eqn:Hscores; cbn [rbind] in Hcls; [|discriminate Hcls].
  destruct (dict_get (lit "compound") scores) as [c|]; cbn [rbind] in Hcls;
    [|discriminate Hcls].
  injection Hcls as <-.
  eexists text, w1, nlp, w2, ents, an, scores, summary, _, _.
  repeat (split; [first [eassumption|reflexivity]|]).
  split.
  - cbv zeta.
    destruct Hcase as [(_ & _ & Hfs)|[(_ & _ & _ & h & _ & Hfs)|(_ & _ & e & _ & Hr)]].
    + left. exact Hfs.
    + right. exists h. exact Hfs.
    + discriminate Hr.
  - unfold json_text. rewrite (json_loads_dumps _ Hrepr).
    unfold results, scores_dict. cbn [tree_of List.map fst snd].
    rewrite !List.map_map. reflexivity.
Qed.

Lemma json_fields_read_back_witness :
  exists res members,
    json_loads (json_text Sample.env res) = Some (JObj members)
    /\ dict_get (lit "entities") members
       = Some (JArr (List.map entity_tree [Sample.paris; Sample.acme; Sample.paris_again])).
Proof.
  destruct (json_fields_read_back Sample.env Sample.cmdline_json Sample.world
              (snd (main Sample.env Sample.cmdline_json Sample.world)))
    as (text & w1 & nlp & w2 & ents & an & scores & summary & label & res
        & Hread & Hload & Hents & _ & _ & _ & _ & Hjson).
  - exact sample_repr_ok.
  - vm_compute. reflexivity.
  - vm_compute in Hload. injection Hload as <- _.
    injection Hents as <-.
    eexists res, _. split; [exact Hjson|]. reflexivity.
Defined.

(** X20: the scorer is built and the three wrappers are called in the order
    of the script, and the first exception ends the run: the progress lines
    of the later steps are not printed and no file is written. *)
Theorem enrichment_failure_aborts
    (E : Env) (cl : CmdLine) (w w1 w2 : World) (text : str) (nlp : NLP) (e : exn) :
  read_input (parse_args cl) w = (Ok text, w1) ->
  load_model E (after_print (lit " Loading spaCy model...") w1) = (Ok nlp, w2) ->
  let failed lines :=
    main E cl w
    = (Raise e, mkWorld (w_fs w) (w_stdin w2) (w_stdout w2 ++ lines) (w_calls w2)) in
  (e_analyzer E = Raise e -> failed [])
  /\ (forall analyzer,
        e_analyzer E = Ok analyzer ->
        (summarize_text (e_summarizer E) text (sentences (parse_args cl)) = Raise e ->
         failed [lit " Summarizing..."])
        /\ (forall summary,
              summarize_text (e_summarizer E) text (sentences (parse_args cl)) = Ok summary ->
              (extract_entities text nlp = Raise e ->
               failed [lit " Summarizing..."; lit " Extracting entities..."])
              /\ (forall entities,
                    extract_entities text nlp = Ok entities ->
                    classify_sentiment text analyzer = Raise e ->
                    failed [lit " Summarizing..."; lit " Extracting entities...";
                            lit " Analyzing sentiment..."]))).
Proof.
  intros Hread Hload failed. subst failed. cbv beta.
  destruct (read_input_frame _ _ _ _ Hread) as [Hfs1 _].
  pose proof (load_model_frame _ _ _ _ Hload) as Hfs2. cbn [w_fs after_print] in Hfs2.
  assert (Hfs : w_fs w2 = w_fs w) by (rewrite Hfs2; exact Hfs1).
  split; [intros Han
         |intros analyzer Han; split;
          [intros Hsum
          |intros summary Hsum; split;
           [intros Hent|intros entities Hent Hcls]]];
    unfold main; unfold bind at 1; rewrite Hread;
    unfold bind at 1; cbn [print];
    fold (after_print (lit " Loading spaCy model...") w1);
    unfold bind at 1; rewrite Hload;
    unfold bind at 1; unfold lift at 1; rewrite Han.
  - rewrite app_nil_r, <- Hfs. destruct w2; reflexivity.
  - unfold bind at 1. cbn [print].
    unfold bind at 1. unfold lift at 1. rewrite Hsum.
    rewrite <- Hfs. reflexivity.
  - unfold bind at 1. cbn [print].
    unfold bind at 1. unfold lift at 1. rewrite Hsum.
    unfold bind at 1. cbn [print].
    unfold bind at 1. unfold lift at 1. rewrite Hent.
    cbn [w_fs w_stdin w_stdout w_calls]. rewrite <- Hfs, <- ?app_assoc. reflexivity.
  - unfold bind at 1. cbn [print].
    unfold bind at 1. unfold lift at 1. rewrite Hsum.
    unfold bind at 1. cbn [print].
    unfold bind at 1. unfold lift at 1. rewrite Hent.
    unfold bind at 1. cbn [print].
    unfold bind at 1. unfold lift at 1. rewrite Hcls.
    cbn [w_fs w_stdin w_stdout w_calls]. rewrite <- Hfs, <- ?app_assoc. reflexivity.
Qed.

Lemma enrichment_failure_aborts_witness :
  main Sample.partial_env Sample.cmdline_json Sample.world
  = (Raise KeyError,
     mkWorld (w_fs Sample.world) (w_stdin Sample.world)
       [lit " Loading spaCy model..."; lit " Summarizing..."; lit " Extracting entities...";
        lit " Analyzing sentiment..."]
       [EvLoad]).
Proof.
  destruct (enrichment_failure_aborts Sample.partial_env Sample.cmdline_json Sample.world
              Sample.world
              (mkWorld (w_fs Sample.world) (w_stdin Sample.world)
                 [lit " Loading spaCy model..."] [EvLoad])
              Sample.text Sample.nlp KeyError eq_refl eq_refl) as [_ H].
  destruct (H (fun _ => Ok Sample.partial_scores) eq_refl) as [_ H1].
  destruct (H1 Sample.text eq_refl) as [_ H2].
  exact (H2 (List.map entity_dict [Sample.paris; Sample.acme; Sample.paris_again])
            eq_refl eq_refl).
Defined.

(** X21: when the JSON file cannot be opened the run fails with the
    exception of [open]; the report is not attempted, so no file is written
    even if the report could have been. *)
Theorem json_write_failure_skips_report
    (E : Env) (cl : CmdLine) (w w1 w2 : World) (text : str) (nlp : NLP)
    (analyzer : Analyzer) (summary : str) (entities : list pyval) (sentiment : pyval)
    (e : exn) :
  read_input (parse_args cl) w = (Ok text, w1) ->
  load_model E (after_print (lit " Loading spaCy model...") w1) = (Ok nlp, w2) ->
  e_analyzer E = Ok analyzer ->
  summarize_text (e_summarizer E) text (sentences (parse_args cl)) = Ok summary ->
  extract_entities text nlp = Ok entities ->
  classify_sentiment text analyzer = Ok sentiment ->
  e_open_w E (json_name E (parse_args cl)) = Some e ->
  main E cl w
  = (Raise e,
     mkWorld (w_fs w) (w_stdin w2)
       (w_stdout w2 ++ [lit " Summarizing..."; lit " Extracting entities...";
                        lit " Analyzing sentiment..."])
       (w_calls w2)).
Proof.
  intros Hread Hload Han Hsum Hent Hcls Hopen.
  destruct (read_input_frame _ _ _ _ Hread) as [Hfs1 _].
  pose proof (load_model_frame _ _ _ _ Hload) as Hfs2. cbn [w_fs after_print] in Hfs2.
  unfold main. unfold bind at 1. rewrite Hread.
  unfold bind at 1. cbn [print]. fold (after_print (lit " Loading spaCy model...") w1).
  unfold bind at 1. rewrite Hload.
  unfold bind at 1. unfold lift at 1. rewrite Han.
  unfold bind at 1. cbn [print].
  unfold bind at 1. unfold lift at 1. rewrite Hsum.
  unfold bind at 1. cbn [print].
  unfold bind at 1. unfold lift at 1. rewrite Hent.
  unfold bind at 1. cbn [print].
  unfold bind at 1. unfold lift at 1. rewrite Hcls.
  cbv zeta. unfold bind at 1. unfold save_json, write_text.
  cbn [w_fs w_stdin w_stdout w_calls].
  destruct (json_name_cons E (parse_args cl)) as (c & jn & Hjn).
  rewrite Hjn in Hopen |- *. rewrite Hopen.
  rewrite Hfs2, Hfs1, <- !app_assoc. reflexivity.
Qed.

Lemma json_write_failure_skips_report_witness :
  main Sample.readonly_env Sample.cmdline_json Sample.world
  = (Raise PermissionError,
     mkWorld (w_fs Sample.world) (w_stdin Sample.world)
       [lit " Loading spaCy model..."; lit " Summarizing..."; lit " Extracting entities...";
        lit " Analyzing sentiment..."]
       [EvLoad]).
Proof.
  apply (json_write_failure_skips_report Sample.readonly_env Sample.cmdline_json
           Sample.world Sample.world
           (mkWorld (w_fs Sample.world) (w_stdin Sample.world)
              [lit " Loading spaCy model..."] [EvLoad])
           Sample.text Sample.nlp Sample.analyzer Sample.text
           (List.map entity_dict [Sample.paris; Sample.acme; Sample.paris_again])
           (PDict [(lit "label", PStr (lit "positive"));
                   (lit "scores", scores_dict Sample.scores)])
           PermissionError); reflexivity.
Defined.
